(** * PlotaDados.py: loading, deriving and reporting MPU6050 samples

    A shallow embedding of [ArquivosDados/PlotaDados.py].  The script reads
    the table [mpu_data.csv] with pandas, derives a time axis and the
    acceleration magnitude, draws four charts, prints summary statistics
    and saves the figure; three [except] clauses turn failures into
    console messages, and a block of usage instructions is printed last.

    Numbers are the script's: float64 cells are binary64 values (Rocq's
    primitive floats), int64 cells are integers that wrap around.  Console
    and disk are an explicit state threaded through a small exception
    monad.  What the libraries do is written down where the script calls
    them: pandas' aggregations and numpy's pairwise sum in full, and
    matplotlib's layout as far as it bears on the run, the figures on
    which it raises being a parameter. *)

From Stdlib Require Import ZArith Floats DecimalString.
From stdpp Require Import gmap strings list fin_maps.

Set Default Proof Using "Type".
Local Open Scope Z_scope.

(** ** Binary64 numbers *)

Module B64.

(** Conversion of an integer to the nearest binary64 value (ties to
    even), as [float(n)] and numpy's int64 -> float64 cast compute it. *)
Definition of_Z (z : Z) : float :=
  SF2Prim (binary_normalize prec emax z 0 false).

(** The same conversion as the processor does it for an int64, written
    with Rocq's primitive conversion of unsigned integers: this is what
    the statements below compare the code's conversion to. *)
Definition of_int64 (z : Z) : float :=
  if z =? - 2 ^ 63 then (- 0x1p63)%float
  else if z <? 0 then (- of_uint63 (Uint63.of_Z (- z)))%float
  else of_uint63 (Uint63.of_Z z).

(** The literal [0.1]: the binary64 value nearest to one tenth. *)
Definition tenth : float := 0x1.999999999999ap-4%float.

(** IEEE comparison [x <= y], which no NaN satisfies. *)
Definition le (x y : float) : Prop := (x <=? y)%float = true.

(** IEEE equality [x == y], which no NaN satisfies. *)
Definition eq (x y : float) : Prop := (x =? y)%float = true.

(** *** Fixed-point formatting: the format specs [.1f] and [.3f]

    Python prints the exact binary value rounded to [p] decimals, ties
    to even, keeps the sign of a negative zero, and spells the special
    values [nan], [inf] and [-inf]. *)

Definition round_half_even (num den : Z) : Z :=
  let q := num / den in
  match (2 * (num mod den)) ?= den with
  | Lt => q
  | Gt => q + 1
  | Eq => if Z.even q then q else q + 1
  end.

(** [m * 2^e * 10^p] rounded to an integer. *)
Definition scaled (p : nat) (m : positive) (e : Z) : Z :=
  let k := 10 ^ Z.of_nat p in
  if 0 <=? e then Z.pos m * 2 ^ e * k
  else round_half_even (Z.pos m * k) (2 ^ (- e)).

Definition decimal (n : Z) : string :=
  NilZero.string_of_uint (N.to_uint (Z.to_N n)).

Fixpoint zeros (n : nat) : string :=
  match n with
  | O => EmptyString
  | S n' => "0" +:+ zeros n'
  end.

(** The digits of [n / 10^p] with [p] decimals. *)
Definition fixed (p : nat) (n : Z) : string :=
  let k := 10 ^ Z.of_nat p in
  let frac := decimal (n mod k) in
  match p with
  | O => decimal n
  | _ => decimal (n / k) +:+ "." +:+ zeros (p - String.length frac) +:+ frac
  end.

Definition sign (s : bool) : string := if s then "-" else EmptyString.

Definition format_f (p : nat) (x : float) : string :=
  match Prim2SF x with
  | S754_nan => "nan"
  | S754_infinity s => sign s +:+ "inf"
  | S754_zero s => sign s +:+ fixed p 0
  | S754_finite s m e => sign s +:+ fixed p (scaled p m e)
  end.

End B64.

(** ** Series and data frames *)

(** A column of numbers.  pandas gives a column of integers the dtype
    int64 and a column of decimal numbers, or one with missing cells, the
    dtype float64; a missing cell reads as NaN.  The tables of this
    development are tables of numbers: a column of text has no place in
    them. *)
Inductive Series :=
| Int64Series (values : list Z)
| Float64Series (values : list float).

(** A single cell. *)
Inductive scalar :=
| np_int64 (z : Z)
| np_float64 (x : float).

(** int64 arithmetic wraps around. *)
Definition wrap64 (z : Z) : Z := (z + 2 ^ 63) mod 2 ^ 64 - 2 ^ 63.

Definition to_float (c : scalar) : float :=
  match c with
  | np_int64 z => B64.of_Z z
  | np_float64 x => x
  end.

Module Series.

Definition len (s : Series) : nat :=
  match s with
  | Int64Series l => length l
  | Float64Series l => length l
  end.

Definition cells (s : Series) : list scalar :=
  match s with
  | Int64Series l => np_int64 <$> l
  | Float64Series l => np_float64 <$> l
  end.

Definition astype_float (s : Series) : list float :=
  match s with
  | Int64Series l => B64.of_Z <$> l
  | Float64Series l => l
  end.

(** [s * c] for a float [c]: the result is a float64 series. *)
Definition mul_float (s : Series) (c : float) : Series :=
  Float64Series ((fun x => x * c)%float <$> astype_float s).

(** [s ** 2]. *)
Definition pow2 (s : Series) : Series :=
  match s with
  | Int64Series l => Int64Series ((fun z => wrap64 (z * z)) <$> l)
  | Float64Series l => Float64Series ((fun x => x * x)%float <$> l)
  end.

(** [s + t], row by row; the columns of one frame share their index. *)
Definition add (s t : Series) : Series :=
  match s, t with
  | Int64Series l, Int64Series k =>
      Int64Series (zip_with (fun a b => wrap64 (a + b)) l k)
  | _, _ =>
      Float64Series (zip_with (fun a b => a + b)%float (astype_float s) (astype_float t))
  end.

(** [np.sqrt(s)]. *)
Definition sqrt (s : Series) : Series :=
  Float64Series (PrimFloat.sqrt <$> astype_float s).

(** [s.iloc[i]] for a row [i] counted from the top. *)
Definition iloc (s : Series) (i : nat) : option scalar := cells s !! i.

(** [s.iloc[-1]]: the last cell, if there is one. *)
Definition last_cell (s : Series) : option scalar := last (cells s).

(** *** Aggregations, which skip missing cells *)

Definition dropna (l : list float) : list float :=
  filter (fun x => is_nan x = false) l.

(** One step of numpy's reductions [minimum] and [maximum]: the running
    value is kept only when it is strictly below (above) the next cell, so
    of two equal cells, the two zeros among them, the later one is kept. *)
Definition fmin (acc x : float) : float := if (acc <? x)%float then acc else x.
Definition fmax (acc x : float) : float := if (x <? acc)%float then acc else x.

Definition nanmin (l : list float) : float :=
  match dropna l with
  | [] => nan
  | x :: r => fold_left fmin r x
  end.

Definition nanmax (l : list float) : float :=
  match dropna l with
  | [] => nan
  | x :: r => fold_left fmax r x
  end.

Definition min (s : Series) : scalar :=
  match s with
  | Int64Series [] => np_float64 nan
  | Int64Series (z :: r) => np_int64 (fold_left Z.min r z)
  | Float64Series l => np_float64 (nanmin l)
  end.

Definition max (s : Series) : scalar :=
  match s with
  | Int64Series [] => np_float64 nan
  | Int64Series (z :: r) => np_int64 (fold_left Z.max r z)
  | Float64Series l => np_float64 (nanmax l)
  end.

Section Mean.
(** The sum of the cells that are not missing.  The mean is written over
    any summation; numpy's own is [np_nansum] below. *)
Variable nansum : list float -> float.

Definition count (s : Series) : nat := length (dropna (astype_float s)).

Definition mean (s : Series) : scalar :=
  match count s with
  | O => np_float64 nan
  | n => np_float64 (nansum (astype_float s) / B64.of_Z (Z.of_nat n))%float
  end.
End Mean.

(** *** The sum, as numpy accumulates it

    numpy adds the cells of a float64 array pairwise.  Fewer than eight
    cells are added one after the other, starting from [-0.0], which
    changes no sum.  Up to 128 cells go to eight running sums, the cell
    [i] to the sum number [i mod 8], as long as whole groups of eight
    cells remain; the eight sums are then added two by two and the
    cells left over one by one.  A longer array is cut in two, the first
    part as near to half as a multiple of eight allows, and the sums of
    the two parts are added. *)

(** The eight running sums, added two by two.  [add_blocks] keeps eight
    of them; the second case only makes the function total. *)
Definition sum8 (r : list float) : float :=
  match r with
  | [r0; r1; r2; r3; r4; r5; r6; r7] =>
      ((r0 + r1) + (r2 + r3)) + ((r4 + r5) + (r6 + r7))
  | _ => fold_left PrimFloat.add r (- 0)
  end%float.

(** [k] more groups of eight cells of [a] added to the running sums [r];
    returns the sums and the cells not yet added. *)
Fixpoint add_blocks (k : nat) (r a : list float) : list float * list float :=
  match k with
  | O => (r, a)
  | S k' => add_blocks k' (zip_with PrimFloat.add r (take 8 a)) (drop 8 a)
  end.

(** The recursion halves the array; [fuel] bounds its depth.  The length
    of the array is always enough fuel, and with enough fuel the case of
    no fuel left is never reached. *)
Fixpoint pairwise_sum (fuel : nat) (a : list float) : float :=
  let n := length a in
  if (n <? 8)%nat then fold_left PrimFloat.add a (- 0)%float
  else if (n <=? 128)%nat then
    let '(r, rest) := add_blocks (n / 8 - 1) (take 8 a) (drop 8 a) in
    fold_left PrimFloat.add rest (sum8 r)
  else
    match fuel with
    | O => fold_left PrimFloat.add a (- 0)%float
    | S fuel' =>
        let n2 := (n / 2 - (n / 2) mod 8)%nat in
        (pairwise_sum fuel' (take n2 a) + pairwise_sum fuel' (drop n2 a))%float
    end.

(** pandas puts [0.0] in the place of a missing cell before it sums. *)
Definition fillna0 (x : float) : float := if is_nan x then 0%float else x.

(** [np.add.reduce] over the filled cells, from the identity [-0.0]. *)
Definition np_nansum (l : list float) : float :=
  (- 0 + pairwise_sum (length l) (fillna0 <$> l))%float.

End Series.

Record DataFrame := {
  index_size : nat;
  columns : gmap string Series
}.

(** Every column of a frame has one cell per row. *)
Definition df_valid (data : DataFrame) : Prop :=
  map_Forall (fun _ s => Series.len s = index_size data) (columns data).

(** ** Figures *)

Record Line2D := {
  line_x : Series;
  line_y : Series;
  line_fmt : string;
  line_label : string
}.

Record Axes := {
  ax_lines : list Line2D;
  ax_title : string;
  ax_xlabel : string;
  ax_ylabel : string;
  ax_legend : bool;
  ax_grid : bool
}.

Record Figure := {
  fig_suptitle : string;
  fig_axes : gmap (nat * nat) Axes
}.

Definition empty_axes : Axes :=
  {| ax_lines := []; ax_title := EmptyString;
     ax_xlabel := EmptyString; ax_ylabel := EmptyString;
     ax_legend := false; ax_grid := false |}.

Module plt.

(** [plt.subplots(2, 2)]: a grid of four empty charts. *)
Definition subplots : Figure :=
  {| fig_suptitle := EmptyString;
     fig_axes := list_to_map
       [((0, 0)%nat, empty_axes); ((0, 1)%nat, empty_axes);
        ((1, 0)%nat, empty_axes); ((1, 1)%nat, empty_axes)] |}.

Definition suptitle (t : string) (fig : Figure) : Figure :=
  {| fig_suptitle := t; fig_axes := fig_axes fig |}.

Definition on_axes (pos : nat * nat) (f : Axes -> Axes) (fig : Figure) : Figure :=
  {| fig_suptitle := fig_suptitle fig; fig_axes := alter f pos (fig_axes fig) |}.

Definition plot (x y : Series) (fmt label : string) (a : Axes) : Axes :=
  {| ax_lines := ax_lines a ++ [{| line_x := x; line_y := y; line_fmt := fmt; line_label := label |}];
     ax_title := ax_title a;
     ax_xlabel := ax_xlabel a; ax_ylabel := ax_ylabel a;
     ax_legend := ax_legend a; ax_grid := ax_grid a |}.

(** [ax.axhline(y=y, linestyle=style, label=label)]: one more line of the
    chart, from the left edge to the right edge at height [y]; its x data
    are the fractions 0 and 1 of the width of the chart. *)
Definition axhline (y : float) (style label : string) (a : Axes) : Axes :=
  plot (Float64Series [0; 1]%float) (Float64Series [y; y]) style label a.

(** [set_title], [set_xlabel], [set_ylabel], [legend()] and [grid(True)]
    as the script calls them, one after the other, on each chart. *)
Definition decorate (title xlabel ylabel : string) (a : Axes) : Axes :=
  {| ax_lines := ax_lines a;
     ax_title := title; ax_xlabel := xlabel; ax_ylabel := ylabel;
     ax_legend := true; ax_grid := true |}.

End plt.

(** The lines of the four charts of a 2 x 2 grid, row by row. *)
Definition figure_lines (fig : Figure) : list Line2D :=
  concat ((fun pos => from_option ax_lines [] (fig_axes fig !! pos))
            <$> [(0, 0); (0, 1); (1, 0); (1, 1)]%nat).

(** *** Numbers that matplotlib lays out

    [plt.tight_layout()] draws the figure to measure it, and to draw a
    chart matplotlib works out its ticks from the range of its data.  On
    numbers of moderate size, zero or between 2^-100 and 2^100 in
    magnitude, that arithmetic neither overflows nor underflows and
    nothing is raised.  On finite numbers near the largest binary64 value
    it overflows, and an exception comes out of [np.arange]. *)
Definition moderate (x : float) : bool :=
  ((x =? 0) || ((0x1p-100 <=? abs x) && (abs x <=? 0x1p100)))%float.

Definition moderate_series (s : Series) : bool :=
  forallb moderate (Series.astype_float s).

Definition moderate_line (l : Line2D) : bool :=
  moderate_series (line_x l) && moderate_series (line_y l).

Definition moderate_figure (fig : Figure) : bool :=
  forallb moderate_line (figure_lines fig).

(** ** Console, disk and exceptions *)

(** What a path on disk holds: text that [pd.read_csv] parses into a
    table, any other content, for which [pd.read_csv] raises an exception
    with the given message, or a saved picture. *)
Inductive file :=
| Table (data : DataFrame)
| Unreadable (message : string)
| Picture (fig : Figure).

Record World := {
  console : list string;
  disk : gmap string file
}.

Inductive exn :=
| FileNotFoundError
| KeyError (key : string)
| IndexError (message : string)
| OtherException (message : string).

(** A computation either returns a value or raises; what it printed and
    wrote before raising stays. *)
Definition Py (A : Type) : Type := World -> World * (exn + A).

Definition ret {A} (a : A) : Py A := fun w => (w, inr a).
Definition raise {A} (e : exn) : Py A := fun w => (w, inl e).

Definition bind {A B} (c : Py A) (k : A -> Py B) : Py B :=
  fun w =>
    match c w with
    | (w', inr a) => k a w'
    | (w', inl e) => (w', inl e)
    end.

#[global] Instance Py_ret : MRet Py := @ret.
#[global] Instance Py_bind : MBind Py := fun A B k c => bind c k.

(** [try: body except ...: handler]. *)
Definition try_except {A} (body : Py A) (handler : exn -> Py A) : Py A :=
  fun w =>
    match body w with
    | (w', inr a) => (w', inr a)
    | (w', inl e) => handler e w'
    end.

(** The world after more lines went to the console. *)
Definition say (lines : list string) (w : World) : World :=
  {| console := console w ++ lines; disk := disk w |}.

Definition print (s : string) : Py unit := fun w => (say [s] w, inr tt).

Definition nl : string := String (Ascii.ascii_of_nat 10) EmptyString.

(** [str(e)] for a [KeyError]: the key between quotes. *)
Definition key_repr (k : string) : string := "'" +:+ k +:+ "'".

Definition utf8_error : string :=
  "'utf-8' codec can't decode byte 0x89 in position 0: invalid start byte".

Definition read_csv (path : string) : Py DataFrame :=
  fun w =>
    match disk w !! path with
    | None => (w, inl FileNotFoundError)
    | Some (Table data) => (w, inr data)
    | Some (Unreadable m) => (w, inl (OtherException m))
    | Some (Picture _) => (w, inl (OtherException utf8_error))
    end.

(** [data[key]]. *)
Definition getitem (data : DataFrame) (key : string) : Py Series :=
  match columns data !! key with
  | Some s => ret s
  | None => raise (KeyError key)
  end.

(** [s.iloc[-1]]. *)
Definition iloc_last (s : Series) : Py scalar :=
  match Series.last_cell s with
  | Some c => ret c
  | None => raise (IndexError "single positional indexer is out-of-bounds")
  end.

(** [plt.show()] displays the figure and returns once its window is
    closed; it prints and writes nothing. *)
Definition show (fig : Figure) : Py unit := ret tt.

(** [plt.savefig(path)]. *)
Definition savefig (path : string) (fig : Figure) : Py unit :=
  fun w => ({| console := console w; disk := <[path := Picture fig]> (disk w) |}, inr tt).

(** ** The script *)

Definition filename : string := "mpu_data.csv".
Definition output : string := "mpu6050_analysis.png".

Section Script.

Variable nansum : list float -> float.

(** Beyond figures of moderate numbers, whether matplotlib's layout
    raises, and with which message, is matplotlib's business: a
    parameter here. *)
Variable layout_error : Figure -> option string.

(** Line 59: [plt.tight_layout()]. *)
Definition tight_layout (fig : Figure) : Py unit :=
  if moderate_figure fig then ret tt
  else
    match layout_error fig with
    | Some m => raise (OtherException m)
    | None => ret tt
    end.

(** Line 14: [time = data['Sample'] * 0.1]. *)
Definition time (data : DataFrame) : Py Series :=
  sample ← getitem data "Sample";
  mret (Series.mul_float sample B64.tenth).

(** [axes[pos].plot(time, data[col], fmt, label=col)]. *)
Definition plot_column (data : DataFrame) (time : Series) (pos : nat * nat)
    (col fmt : string) (fig : Figure) : Py Figure :=
  y ← getitem data col;
  mret (plt.on_axes pos (plt.plot time y fmt col) fig).

(** Lines 20-28. *)
Definition plot_acceleration (data : DataFrame) (time : Series) (fig : Figure) : Py Figure :=
  fig ← plot_column data time (0, 0)%nat "AccelX" "r-" fig;
  fig ← plot_column data time (0, 0)%nat "AccelY" "g-" fig;
  fig ← plot_column data time (0, 0)%nat "AccelZ" "b-" fig;
  mret (plt.on_axes (0, 0)%nat
          (plt.decorate "Acceleration (g)" "Time (s)" "Acceleration (g)") fig).

(** Lines 30-38. *)
Definition plot_gyroscope (data : DataFrame) (time : Series) (fig : Figure) : Py Figure :=
  fig ← plot_column data time (0, 1)%nat "GyroX" "r-" fig;
  fig ← plot_column data time (0, 1)%nat "GyroY" "g-" fig;
  fig ← plot_column data time (0, 1)%nat "GyroZ" "b-" fig;
  mret (plt.on_axes (0, 1)%nat
          (plt.decorate "Gyroscope (deg/s)" "Time (s)" "Angular Velocity (deg/s)") fig).

(** Lines 40-47. *)
Definition plot_angles (data : DataFrame) (time : Series) (fig : Figure) : Py Figure :=
  fig ← plot_column data time (1, 0)%nat "Roll" "purple" fig;
  fig ← plot_column data time (1, 0)%nat "Pitch" "orange" fig;
  mret (plt.on_axes (1, 0)%nat
          (plt.decorate "Orientation Angles (deg)" "Time (s)" "Angle (deg)") fig).

(** Line 50: [np.sqrt(data['AccelX']**2 + data['AccelY']**2 + data['AccelZ']**2)]. *)
Definition accel_magnitude (data : DataFrame) : Py Series :=
  x ← getitem data "AccelX";
  y ← getitem data "AccelY";
  z ← getitem data "AccelZ";
  mret (Series.sqrt
          (Series.add (Series.add (Series.pow2 x) (Series.pow2 y)) (Series.pow2 z))).

(** Lines 51-57. *)
Definition plot_magnitude (time accel_magnitude : Series) (fig : Figure) : Figure :=
  plt.on_axes (1, 1)%nat
    (fun a =>
       plt.decorate "Acceleration Magnitude" "Time (s)" "Magnitude (g)"
         (plt.axhline 1 "--" "1g reference"
            (plt.plot time accel_magnitude "black" "Magnitude" a)))
    fig.

(** [len(data) / time.iloc[-1]]: a division of binary64 numbers, which
    yields an infinity or NaN, and no exception, when the divisor is zero. *)
Definition truediv (n : nat) (d : scalar) : float :=
  (B64.of_Z (Z.of_nat n) / to_float d)%float.

(** The eight f-strings of lines 66-77 share this shape:
    [f"{label} min={data[col].min():.Nf}, max={data[col].max():.Nf}, avg={data[col].mean():.Nf}"]. *)
Definition stats_text (label : string) (p : nat) (lo hi avg : scalar) : string :=
  label +:+ " min=" +:+ B64.format_f p (to_float lo) +:+
  ", max=" +:+ B64.format_f p (to_float hi) +:+
  ", avg=" +:+ B64.format_f p (to_float avg).

Definition print_stats (data : DataFrame) (label col : string) (p : nat) : Py unit :=
  a ← getitem data col;
  b ← getitem data col;
  c ← getitem data col;
  print (stats_text label p (Series.min a) (Series.max b) (Series.mean nansum c)).

(** Lines 62-77. *)
Definition report (data : DataFrame) (time : Series) : Py unit :=
  t ← iloc_last time;
  print ("Duration: " +:+ B64.format_f 1 (to_float t) +:+ " seconds");;
  t ← iloc_last time;
  print ("Sample rate: " +:+ B64.format_f 1 (truediv (index_size data) t) +:+ " Hz");;
  print (nl +:+ "Acceleration statistics (g):");;
  print_stats data "  X:" "AccelX" 3;;
  print_stats data "  Y:" "AccelY" 3;;
  print_stats data "  Z:" "AccelZ" 3;;
  print (nl +:+ "Gyroscope statistics (deg/s):");;
  print_stats data "  X:" "GyroX" 1;;
  print_stats data "  Y:" "GyroY" 1;;
  print_stats data "  Z:" "GyroZ" 1;;
  print (nl +:+ "Angle statistics (deg):");;
  print_stats data "  Roll: " "Roll" 1;;
  print_stats data "  Pitch:" "Pitch" 1.

(** What [report] sends to the console when nothing raises. *)
Definition stats_line (label : string) (p : nat) (s : Series) : string :=
  stats_text label p (Series.min s) (Series.max s) (Series.mean nansum s).

Definition report_lines (n : nat) (t : scalar)
    (ax ay az gx gy gz roll pitch : Series) : list string :=
  ["Duration: " +:+ B64.format_f 1 (to_float t) +:+ " seconds";
   "Sample rate: " +:+ B64.format_f 1 (truediv n t) +:+ " Hz";
   nl +:+ "Acceleration statistics (g):";
   stats_line "  X:" 3 ax;
   stats_line "  Y:" 3 ay;
   stats_line "  Z:" 3 az;
   nl +:+ "Gyroscope statistics (deg/s):";
   stats_line "  X:" 1 gx;
   stats_line "  Y:" 1 gy;
   stats_line "  Z:" 1 gz;
   nl +:+ "Angle statistics (deg):";
   stats_line "  Roll: " 1 roll;
   stats_line "  Pitch:" 1 pitch].

(** The console after a run in which nothing raised. *)
Definition success_lines (n : nat) (t : scalar)
    (ax ay az gx gy gz roll pitch : Series) : list string :=
  ["Data loaded: " +:+ B64.decimal (Z.of_nat n) +:+ " samples"] ++
  report_lines n t ax ay az gx gy gz roll pitch ++
  [nl +:+ "Plot saved as: mpu6050_analysis.png"].

(** Lines 9-84: the body of the [try]. *)
Definition body : Py unit :=
  data ← read_csv filename;
  print ("Data loaded: " +:+ B64.decimal (Z.of_nat (index_size data)) +:+ " samples");;
  time ← time data;
  let fig := plt.suptitle "MPU6050 Data Analysis" plt.subplots in
  fig ← plot_acceleration data time fig;
  fig ← plot_gyroscope data time fig;
  fig ← plot_angles data time fig;
  accel_magnitude ← accel_magnitude data;
  let fig := plot_magnitude time accel_magnitude fig in
  tight_layout fig;;
  report data time;;
  show fig;;
  savefig output fig;;
  print (nl +:+ "Plot saved as: mpu6050_analysis.png").

(** Lines 86-99: the three [except] clauses. *)
Definition handler (e : exn) : Py unit :=
  match e with
  | FileNotFoundError =>
      print ("ERROR: File '" +:+ filename +:+ "' not found!");;
      print (nl +:+ "Make sure to:");;
      print "1. Transfer CSV file from microcontroller using 't' command";;
      print "2. Copy data between markers and save as 'mpu_data.csv'";;
      print "3. Put file in same folder as this script"
  | KeyError k =>
      print ("ERROR: Column not found: " +:+ key_repr k);;
      print "Check if CSV has correct header:";;
      print "Sample,AccelX,AccelY,AccelZ,GyroX,GyroY,GyroZ,Roll,Pitch"
  | IndexError m => print ("ERROR: " +:+ m)
  | OtherException m => print ("ERROR: " +:+ m)
  end.

(** Lines 101-105. *)
Definition usage : list string :=
  [nl +:+ "USAGE INSTRUCTIONS:";
   "1. On microcontroller: press 't' -> type 'mpu_data.csv'";
   "2. Copy data between markers";
   "3. Paste in text file and save as 'mpu_data.csv'";
   "4. Run: python PlotaDados.py"].

Definition print_usage : Py unit :=
  print (nl +:+ "USAGE INSTRUCTIONS:");;
  print "1. On microcontroller: press 't' -> type 'mpu_data.csv'";;
  print "2. Copy data between markers";;
  print "3. Paste in text file and save as 'mpu_data.csv'";;
  print "4. Run: python PlotaDados.py".

(** What the [except] clauses print. *)
Definition not_found_lines : list string :=
  ["ERROR: File 'mpu_data.csv' not found!";
   nl +:+ "Make sure to:";
   "1. Transfer CSV file from microcontroller using 't' command";
   "2. Copy data between markers and save as 'mpu_data.csv'";
   "3. Put file in same folder as this script"].

Definition missing_column_lines (c : string) : list string :=
  ["ERROR: Column not found: '" +:+ c +:+ "'";
   "Check if CSV has correct header:";
   "Sample,AccelX,AccelY,AccelZ,GyroX,GyroY,GyroZ,Roll,Pitch"].

(** The whole script. *)
Definition main : Py unit :=
  try_except body handler;;
  print_usage.

End Script.

(** ** The data model *)

Definition float_columns : list string :=
  ["AccelX"; "AccelY"; "AccelZ"; "GyroX"; "GyroY"; "GyroZ"; "Roll"; "Pitch"].

Definition expected_columns : list string := "Sample" :: float_columns.

(** The header is the expected one: every expected column is there. *)
Definition has_header (data : DataFrame) : Prop :=
  forall c, c ∈ expected_columns -> is_Some (columns data !! c).

(** An int64 cell lies in the int64 range, and so does the number of
    rows: so it is for every table that pandas holds. *)
Definition in_int64 (c : scalar) : Prop :=
  match c with
  | np_int64 z => - 2 ^ 63 <= z < 2 ^ 63
  | np_float64 _ => True
  end.

Definition df_int64 (data : DataFrame) : Prop :=
  Z.of_nat (index_size data) < 2 ^ 63 /\
  map_Forall (fun _ s => Forall in_int64 (Series.cells s)) (columns data).

(** A well-formed dataset: a table with every expected column.  pandas
    decides the dtype of each column from the way the file spells its
    cells. *)
Record well_formed (data : DataFrame) : Prop := {
  wf_header : has_header data;
  wf_valid : df_valid data;
  wf_int64 : df_int64 data
}.

(** The binary64 value of a cell, and whether the cell is missing. *)
Definition as_float64 (c : scalar) : float :=
  match c with
  | np_int64 z => B64.of_int64 z
  | np_float64 x => x
  end.

Definition missing (c : scalar) : bool :=
  match c with
  | np_int64 _ => false
  | np_float64 x => is_nan x
  end.

(** A column that reads the integers [v]: an int64 column when the file
    spells them as integers, a float64 column when it spells them with a
    decimal point. *)
Definition holds (s : Series) (v : list Z) : Prop :=
  s = Int64Series v \/ s = Float64Series (B64.of_Z <$> v).


(** The square of a cell and the sum of two cells, in the arithmetic of
    their dtypes: int64 cells wrap around, and an int64 cell added to a
    float64 cell is converted first. *)
Definition square (c : scalar) : scalar :=
  match c with
  | np_int64 z => np_int64 (wrap64 (z * z))
  | np_float64 x => np_float64 (x * x)
  end.

Definition plus (a b : scalar) : scalar :=
  match a, b with
  | np_int64 x, np_int64 y => np_int64 (wrap64 (x + y))
  | _, _ => np_float64 (as_float64 a + as_float64 b)
  end.

(** The Euclidean norm of three cells; on three float64 cells it is
    [sqrt (x * x + y * y + z * z)] in binary64 arithmetic. *)
Definition norm (x y z : scalar) : float :=
  sqrt (as_float64 (plus (plus (square x) (square y)) (square z))).

(** A cell that is not missing and, in an int64 column, no larger than
    10^9 in magnitude. *)
Definition ordinary (c : scalar) : Prop :=
  match c with
  | np_int64 z => Z.abs z <= 10 ^ 9
  | np_float64 x => is_nan x = false
  end.

(** Aggregates over the cells of a float64 column that are not missing:
    a minimum is such a cell that none is below, a maximum one that none
    is above.  A column with no such cell has NaN for both. *)
Definition is_minimum (m : float) (l : list float) : Prop :=
  match Series.dropna l with
  | [] => m = nan
  | _ => m ∈ Series.dropna l /\ forall y, y ∈ Series.dropna l -> B64.le m y
  end.

Definition is_maximum (m : float) (l : list float) : Prop :=
  match Series.dropna l with
  | [] => m = nan
  | _ => m ∈ Series.dropna l /\ forall y, y ∈ Series.dropna l -> B64.le y m
  end.







(** A number that is not NaN and carries the sign [s]. *)
Definition signed (s : bool) (r : spec_float) : Prop :=
  match r with
  | S754_nan => False
  | S754_zero s' | S754_infinity s' | S754_finite s' _ _ => s' = s
  end.

(** A computation that never writes to disk. *)
Definition keeps_disk {A} (c : Py A) : Prop :=
  forall w w' r, c w = (w', r) -> disk w' = disk w.

(** A computation that has written nothing when it raises. *)
Definition raises_before_writing {A} (c : Py A) : Prop :=
  forall w w' e, c w = (w', inl e) -> disk w' = disk w.

(** ** Sample runs *)

(** A machine on which [mpu_data.csv] holds the given content, if any. *)
Definition boot (content : option file) : World :=
  {| console := [];
     disk := match content with
             | Some f => {[ filename := f ]}
             | None => ∅
             end |}.

Definition frame (n : nat) (cols : list (string * Series)) : DataFrame :=
  {| index_size := n; columns := list_to_map cols |}.

Definition rest_columns (n : nat) : list (string * Series) :=
  let zeros := Float64Series (replicate n 0%float) in
  [("GyroX", zeros); ("GyroY", zeros); ("GyroZ", zeros);
   ("Roll", zeros); ("Pitch", zeros)].

(** The three rows of the specification's example. *)
Definition three_rows : DataFrame :=
  frame 3
    ([("Sample", Int64Series [0; 1; 2]);
      ("AccelX", Float64Series [0; 0; 0]%float);
      ("AccelY", Float64Series [0; 0; 0]%float);
      ("AccelZ", Float64Series [1; 1; 1]%float)] ++ rest_columns 3).

(** The three rows with a tenth column, a temperature. *)
Definition three_rows_and_more : DataFrame :=
  {| index_size := 3;
     columns := <["Temp" := Float64Series [21.5; 21.5; 21.75]%float]> (columns three_rows) |}.

(** One row whose [AccelX] cell is missing. *)
Definition missing_cell : DataFrame :=
  frame 1
    ([("Sample", Int64Series [0]);
      ("AccelX", Float64Series [nan]);
      ("AccelY", Float64Series [0]%float);
      ("AccelZ", Float64Series [1]%float)] ++ rest_columns 1).

(** A correct header and no row. *)
Definition no_rows : DataFrame :=
  frame 0
    ([("Sample", Int64Series []);
      ("AccelX", Float64Series []);
      ("AccelY", Float64Series []);
      ("AccelZ", Float64Series [])] ++ rest_columns 0).

(** The three rows with angular velocities of 1e308 and -1e308, near
    the largest binary64 number; [0x1.1ccf385ebc8ap+1023] is the binary64
    number that [1e308] reads as. *)
Definition three_rows_off_scale : DataFrame :=
  frame 3
    [("Sample", Int64Series [0; 1; 2]);
     ("AccelX", Float64Series [0; 0; 0]%float);
     ("AccelY", Float64Series [0; 0; 0]%float);
     ("AccelZ", Float64Series [1; 1; 1]%float);
     ("GyroX", Float64Series [0x1.1ccf385ebc8ap+1023; -0x1.1ccf385ebc8ap+1023; 0]%float);
     ("GyroY", Float64Series [0; 0; 0]%float);
     ("GyroZ", Float64Series [0; 0; 0]%float);
     ("Roll", Float64Series [0; 0; 0]%float);
     ("Pitch", Float64Series [0; 0; 0]%float)].

(** A table without the [GyroY] column. *)
Definition no_gyro_y : DataFrame :=
  frame 1
    [("Sample", Int64Series [0]);
     ("AccelX", Float64Series [0]%float);
     ("AccelY", Float64Series [0]%float);
     ("AccelZ", Float64Series [1]%float);
     ("GyroX", Float64Series [0]%float);
     ("GyroZ", Float64Series [0]%float);
     ("Roll", Float64Series [0]%float);
     ("Pitch", Float64Series [0]%float)].

(** A table without the [GyroY] and [Pitch] columns. *)
Definition no_gyro_y_no_pitch : DataFrame :=
  frame 1
    [("Sample", Int64Series [0]);
     ("AccelX", Float64Series [0]%float);
     ("AccelY", Float64Series [0]%float);
     ("AccelZ", Float64Series [1]%float);
     ("GyroX", Float64Series [0]%float);
     ("GyroZ", Float64Series [0]%float);
     ("Roll", Float64Series [0]%float)].

(** ** The figure and the effect of a run *)

Definition line (x y : Series) (fmt label : string) : Line2D :=
  {| line_x := x; line_y := y; line_fmt := fmt; line_label := label |}.

(** A chart with its legend and its grid on. *)
Definition chart (lines : list Line2D) (title xlabel ylabel : string) : Axes :=
  {| ax_lines := lines; ax_title := title;
     ax_xlabel := xlabel; ax_ylabel := ylabel; ax_legend := true; ax_grid := true |}.

(** The 2 x 2 grid once every chart is drawn: acceleration and gyroscope
    on the first row, angles and magnitude on the second. *)
Definition drawing (tm ax ay az gx gy gz roll pitch mag : Series) : Figure :=
  {| fig_suptitle := "MPU6050 Data Analysis";
     fig_axes := list_to_map
       [((0, 0)%nat,
         chart [line tm ax "r-" "AccelX"; line tm ay "g-" "AccelY"; line tm az "b-" "AccelZ"]
           "Acceleration (g)" "Time (s)" "Acceleration (g)");
        ((0, 1)%nat,
         chart [line tm gx "r-" "GyroX"; line tm gy "g-" "GyroY"; line tm gz "b-" "GyroZ"]
           "Gyroscope (deg/s)" "Time (s)" "Angular Velocity (deg/s)");
        ((1, 0)%nat,
         chart [line tm roll "purple" "Roll"; line tm pitch "orange" "Pitch"]
           "Orientation Angles (deg)" "Time (s)" "Angle (deg)");
        ((1, 1)%nat,
         chart [line tm mag "black" "Magnitude";
                line (Float64Series [0; 1]%float) (Float64Series [1; 1]%float)
                  "--" "1g reference"]
           "Acceleration Magnitude" "Time (s)" "Magnitude (g)")] |}.

(** The magnitude series of three columns, as line 50 computes it. *)
Definition magnitude_of (ax ay az : Series) : Series :=
  Series.sqrt (Series.add (Series.add (Series.pow2 ax) (Series.pow2 ay)) (Series.pow2 az)).

(** The column [c] of a table that has it. *)
Definition column (data : DataFrame) (c : string) : Series :=
  default (Float64Series []) (columns data !! c).

(** The figure the script has drawn, when it reaches line 59, from a
    table with the expected header. *)
Definition figure_of (data : DataFrame) : Figure :=
  drawing (Series.mul_float (column data "Sample") B64.tenth)
    (column data "AccelX") (column data "AccelY") (column data "AccelZ")
    (column data "GyroX") (column data "GyroY") (column data "GyroZ")
    (column data "Roll") (column data "Pitch")
    (magnitude_of (column data "AccelX") (column data "AccelY") (column data "AccelZ")).

(** The lines of a run in which nothing raises, [t] being the last time. *)
Definition run_lines (nansum : list float -> float) (data : DataFrame) (t : scalar) :
    list string :=
  success_lines nansum (index_size data) t
    (column data "AccelX") (column data "AccelY") (column data "AccelZ")
    (column data "GyroX") (column data "GyroY") (column data "GyroZ")
    (column data "Roll") (column data "Pitch").

(** [plt.tight_layout()] returns on the figure, or raises an exception
    with the message [m]. *)
Definition laid_out (layout_error : Figure -> option string) (fig : Figure) : Prop :=
  moderate_figure fig = true \/ layout_error fig = None.

Definition layout_raises (layout_error : Figure -> option string)
    (fig : Figure) (m : string) : Prop :=
  moderate_figure fig = false /\ layout_error fig = Some m.

(** One layout, for the sample runs: it gives up, with the message that
    matplotlib's gives there, on a figure that holds a finite number of
    magnitude 2^1023 or more, and on no other figure. *)
Definition off_scale (x : float) : bool :=
  ((0x1p1023 <=? abs x) && negb (is_infinity x))%float.

Definition off_scale_line (l : Line2D) : bool :=
  existsb off_scale (Series.astype_float (line_x l)) ||
  existsb off_scale (Series.astype_float (line_y l)).

Definition overflowing (fig : Figure) : option string :=
  if existsb off_scale_line (figure_lines fig)
  then Some "arange: cannot compute length"
  else None.

(** The first line of a run whose file loads. *)
Definition loaded_line (data : DataFrame) : string :=
  "Data loaded: " +:+ B64.decimal (Z.of_nat (index_size data)) +:+ " samples".

(** What a computation did: the lines it printed and the picture it
    saved as [mpu6050_analysis.png], if it saved one. *)
Record effect := {
  printed : list string;
  saved : option Figure
}.

Definition after (eff : effect) (w : World) : World :=
  {| console := console w ++ printed eff;
     disk := match saved eff with
             | Some fig => <[output := Picture fig]> (disk w)
             | None => disk w
             end |}.

(** One effect after another: the later picture replaces the earlier. *)
Definition and_then (e1 e2 : effect) : effect :=
  {| printed := printed e1 ++ printed e2;
     saved := match saved e2 with
              | Some fig => Some fig
              | None => saved e1
              end |}.

(** A computation that does the same thing in every world. *)
Definition uniform {A} (c : Py A) : Prop :=
  exists eff r, forall w, c w = (after eff w, r).

(** Two tables that agree on the number of rows and on the nine columns
    the script names; they may differ in any other column. *)
Definition agree (data data' : DataFrame) : Prop :=
  index_size data = index_size data' /\
  forall c, c ∈ expected_columns -> columns data !! c = columns data' !! c.

(** A column with every cell negated, or left as it is: the sensor
    mounted the other way round along that axis, or not. *)
Definition flipped (b : bool) (l : list float) : list float :=
  if b then PrimFloat.opp <$> l else l.

(** * Facts *)

(** ** Formatting, on a few numbers *)

Example format_f_quarter : B64.format_f 1 0.25%float = "0.2".
Proof. vm_compute. reflexivity. Qed.

Example format_f_three_quarters : B64.format_f 1 0.75%float = "0.8".
Proof. vm_compute. reflexivity. Qed.

Example format_f_neg_small : B64.format_f 1 (-0.03125)%float = "-0.0".
Proof. vm_compute. reflexivity. Qed.

Example format_f_thousandths : B64.format_f 3 1.0625%float = "1.062".
Proof. vm_compute. reflexivity. Qed.

Example format_f_large : B64.format_f 1 (B64.of_Z (10 ^ 22)) = "10000000000000000000000.0".
Proof. vm_compute. reflexivity. Qed.

Example format_f_two_tenths : B64.format_f 1 (B64.of_Z 2 * B64.tenth)%float = "0.2".
Proof. vm_compute. reflexivity. Qed.

(** ** Rounding never turns a number into NaN, and keeps its sign *)

Section Rounding.
Variables prec emax : Z.

Lemma shr_1_nonneg r : 0 <= shr_m r -> 0 <= shr_m (shr_1 r).
Proof. destruct r as [[|[p|p|]|p] ? ?]; simpl; lia. Qed.

Lemma iter_shr_1_nonneg p :
  forall r, 0 <= shr_m r -> 0 <= shr_m (SpecFloat.iter_pos shr_1 p r).
Proof.
  induction p as [p IH|p IH|]; simpl; intros r Hr.
  - apply IH, IH, shr_1_nonneg, Hr.
  - apply IH, IH, Hr.
  - apply shr_1_nonneg, Hr.
Qed.

Lemma shr_fexp_nonneg m e l :
  0 <= m -> 0 <= shr_m (shr_fexp prec emax m e l).1.
Proof.
  intros Hm. unfold shr_fexp, shr.
  assert (0 <= shr_m (shr_record_of_loc m l)) by (destruct l as [|[]]; exact Hm).
  destruct (fexp prec emax (Zdigits2 m + e) - e); simpl; auto using iter_shr_1_nonneg.
Qed.

Lemma round_nearest_even_nonneg m l : 0 <= m -> 0 <= round_nearest_even m l.
Proof. destruct l as [|[]]; simpl; [| destruct (Z.even m) | |]; lia. Qed.

Lemma binary_round_aux_signed s m e l :
  0 <= m -> signed s (binary_round_aux prec emax s m e l).
Proof.
  intros Hm. unfold binary_round_aux.
  pose proof (shr_fexp_nonneg m e l Hm) as H1.
  destruct (shr_fexp prec emax m e l) as [r1 e1]; simpl in H1.
  pose proof (shr_fexp_nonneg _ e1 loc_Exact
                (round_nearest_even_nonneg _ (loc_of_shr_record r1) H1)) as H2.
  destruct (shr_fexp prec emax _ e1 loc_Exact) as [r2 e2]; simpl in H2.
  destruct (shr_m r2); [reflexivity | | lia].
  destruct (e2 <=? emax - prec); reflexivity.
Qed.

Lemma binary_round_signed s m e : signed s (binary_round prec emax s m e).
Proof.
  unfold binary_round. destruct (shl_align _ _ _).
  apply binary_round_aux_signed. lia.
Qed.

Lemma signed_not_nan s r : signed s r -> r <> S754_nan.
Proof. intros H E. rewrite E in H. exact H. Qed.

Lemma binary_normalize_not_nan m e :
  binary_normalize prec emax m e false <> S754_nan.
Proof.
  destruct m as [|p|p]; simpl; [discriminate | |];
    eapply signed_not_nan, binary_round_signed.
Qed.

Lemma SFldexp_not_nan x e : x <> S754_nan -> SFldexp prec emax x e <> S754_nan.
Proof.
  destruct x as [s|s| |s m f]; simpl; try congruence.
  intros _. eapply signed_not_nan, binary_round_signed.
Qed.

Lemma SFopp_not_nan x : x <> S754_nan -> SFopp x <> S754_nan.
Proof. destruct x; simpl; congruence. Qed.

Lemma SFmul_finite_not_nan x s m e :
  x <> S754_nan -> SFmul prec emax x (S754_finite s m e) <> S754_nan.
Proof.
  destruct x as [t|t| |t n f]; simpl; try congruence.
  intros _. eapply signed_not_nan, binary_round_aux_signed. lia.
Qed.

Lemma SFmul_self_signed x : x <> S754_nan -> signed false (SFmul prec emax x x).
Proof.
  destruct x as [s|s| |s m e]; simpl; intros Hx; try congruence.
  - apply xorb_nilpotent.
  - apply xorb_nilpotent.
  - rewrite xorb_nilpotent. apply binary_round_aux_signed. lia.
Qed.

Lemma SFadd_signed x y :
  signed false x -> signed false y -> signed false (SFadd prec emax x y).
Proof.
  destruct x as [s|s| |s m e], y as [t|t| |t n f]; simpl;
    intros Hx Hy; subst; try reflexivity; try contradiction.
  apply binary_round_signed.
Qed.

Lemma SFsqrt_signed x : signed false x -> signed false (SFsqrt prec emax x).
Proof.
  destruct x as [s|s| |s m e]; simpl; intros Hx; subst;
    try reflexivity; try contradiction.
  unfold SFsqrt_core_binary.
  destruct (Z.sqrtrem _) as [q r] eqn:E.
  apply binary_round_aux_signed.
  change q with (q, r).1. rewrite <- E, Z.sqrtrem_sqrt. apply Z.sqrt_nonneg.
Qed.

Lemma SFadd_nan_r x : SFadd prec emax x S754_nan = S754_nan.
Proof. destruct x; reflexivity. Qed.

End Rounding.

(** ** The order of binary64 numbers *)

Lemma SFcompare_swap x y : SFcompare y x = CompOpp <$> SFcompare x y.
Proof.
  destruct x as [s|s| |s m e], y as [t|t| |t n f]; simpl; try reflexivity;
    try (destruct s; reflexivity); try (destruct t; reflexivity);
    try (destruct s, t; reflexivity).
  destruct s, t; simpl; try reflexivity.
  all: rewrite (Z.compare_antisym f e); destruct (f ?= e) eqn:E; simpl; try reflexivity.
  all: change (Pos.compare_cont Eq ?a ?b) with (Pos.compare a b).
  all: rewrite (Pos.compare_antisym n m); try reflexivity.
  all: destruct (n ?= m)%positive; reflexivity.
Qed.

Lemma SFleb_trans x y z :
  SFleb x y = true -> SFleb y z = true -> SFleb x z = true.
Proof.
  unfold SFleb.
  destruct x as [s|s| |s m e], y as [t|t| |t n f], z as [u|u| |u o g]; simpl;
    try discriminate; try reflexivity;
    try (destruct s; try discriminate; try reflexivity);
    try (destruct t; try discriminate; try reflexivity);
    try (destruct u; try discriminate; try reflexivity).
  all: change (Pos.compare_cont Eq ?a ?b) with (Pos.compare a b).
  all: destruct (Z.compare_spec e f), (Z.compare_spec f g), (Z.compare_spec e g);
    subst; try lia; simpl; try discriminate; try reflexivity.
  all: destruct (Pos.compare_spec m n), (Pos.compare_spec n o), (Pos.compare_spec m o);
    subst; try lia; simpl; try discriminate; try reflexivity.
Qed.

Lemma SFleb_refl x : x <> S754_nan -> SFleb x x = true.
Proof.
  unfold SFleb.
  destruct x as [s|s| |s m e]; simpl; try congruence; try (destruct s; reflexivity).
  intros _. rewrite Z.compare_refl.
  change (Pos.compare_cont Eq ?a ?b) with (Pos.compare a b).
  rewrite Pos.compare_refl. destruct s; reflexivity.
Qed.

Lemma SFltb_false_leb x y :
  x <> S754_nan -> y <> S754_nan -> SFltb x y = false -> SFleb y x = true.
Proof.
  unfold SFltb, SFleb. intros Hx Hy. rewrite (SFcompare_swap x y).
  destruct (SFcompare x y) as [[]|] eqn:E; simpl; try discriminate; try reflexivity.
  destruct x, y; simpl in E; congruence.
Qed.

Module B64Facts.

Lemma is_nan_spec x : is_nan x = true <-> Prim2SF x = S754_nan.
Proof.
  unfold Prim2SF. destruct (is_nan x); split; try reflexivity; try discriminate.
  destruct (is_zero x); [discriminate |].
  destruct (is_infinity x); [discriminate |].
  destruct (Z.frexp x). destruct (shr_fexp _ _ _ _ _).
  destruct (shr_m _); discriminate.
Qed.

Lemma not_nan_spec x : is_nan x = false <-> Prim2SF x <> S754_nan.
Proof. rewrite <- is_nan_spec. destruct (is_nan x); split; congruence. Qed.

(** A number that is not NaN equals itself. *)
Lemma eq_refl x : is_nan x = false -> B64.eq x x.
Proof. unfold B64.eq, is_nan. destruct (x =? x)%float; [reflexivity | discriminate]. Qed.

Lemma le_refl x : is_nan x = false -> B64.le x x.
Proof.
  intros H. unfold B64.le. rewrite leb_spec.
  apply SFleb_refl, not_nan_spec, H.
Qed.

Lemma le_trans x y z : B64.le x y -> B64.le y z -> B64.le x z.
Proof. unfold B64.le. rewrite !leb_spec. apply SFleb_trans. Qed.

Lemma not_lt_le x y :
  is_nan x = false -> is_nan y = false -> (x <? y)%float = false -> B64.le y x.
Proof.
  unfold B64.le. rewrite ltb_spec, leb_spec, !not_nan_spec.
  apply SFltb_false_leb.
Qed.

Lemma lt_le x y : (x <? y)%float = true -> B64.le x y.
Proof.
  unfold B64.le. rewrite ltb_spec, leb_spec. unfold SFltb, SFleb.
  destruct (SFcompare _ _) as [[]|]; congruence.
Qed.

Lemma signed_nonneg x : signed false (Prim2SF x) -> B64.le 0 x.
Proof.
  unfold B64.le. rewrite leb_spec.
  change (Prim2SF 0) with (S754_zero false).
  destruct (Prim2SF x) as [s|s| |s m e]; simpl; intros H; subst;
    reflexivity || contradiction.
Qed.

Lemma nan_not_nonneg x : is_nan x = true -> ~ B64.le 0 x.
Proof.
  unfold B64.le. rewrite leb_spec, is_nan_spec. intros ->.
  change (Prim2SF 0) with (S754_zero false). discriminate.
Qed.

(** *** Arithmetic and NaN *)

Lemma mul_self_signed x : is_nan x = false -> signed false (Prim2SF (x * x)).
Proof. rewrite mul_spec, not_nan_spec. apply SFmul_self_signed. Qed.

Lemma mul_self_nan x : is_nan x = true -> is_nan (x * x) = true.
Proof. rewrite !is_nan_spec, mul_spec. intros ->. reflexivity. Qed.

Lemma add_nan_l x y : is_nan x = true -> is_nan (x + y) = true.
Proof. rewrite !is_nan_spec, add_spec. intros ->. reflexivity. Qed.

Lemma add_nan_r x y : is_nan y = true -> is_nan (x + y) = true.
Proof. rewrite !is_nan_spec, add_spec. intros ->. apply SFadd_nan_r. Qed.

Lemma sqrt_nan x : is_nan x = true -> is_nan (sqrt x) = true.
Proof. rewrite !is_nan_spec, sqrt_spec. intros ->. reflexivity. Qed.

Lemma add_signed x y :
  signed false (Prim2SF x) -> signed false (Prim2SF y) -> signed false (Prim2SF (x + y)).
Proof. rewrite add_spec. apply SFadd_signed. Qed.

Lemma sqrt_signed x : signed false (Prim2SF x) -> signed false (Prim2SF (sqrt x)).
Proof. rewrite sqrt_spec. apply SFsqrt_signed. Qed.

(** A square root is NaN or at least zero. *)
Lemma sqrt_nan_or_nonneg x : is_nan (sqrt x) = true \/ B64.le 0 (sqrt x).
Proof.
  destruct (is_nan (sqrt x)) eqn:E; [left; reflexivity | right].
  apply not_nan_spec in E. revert E.
  unfold B64.le. rewrite leb_spec, sqrt_spec.
  change (Prim2SF 0) with (S754_zero false).
  destruct (Prim2SF x) as [s|s| |s m e] eqn:Hx.
  - destruct s; reflexivity.
  - destruct s; [intros E; contradiction E; reflexivity | reflexivity].
  - intros E. contradiction E. reflexivity.
  - destruct s; [intros E; contradiction E; reflexivity |].
    intros _.
    pose proof (SFsqrt_signed prec emax (S754_finite false m e) Logic.eq_refl) as H.
    unfold SF64sqrt.
    destruct (SFsqrt prec emax (S754_finite false m e)) as [s|s| |s m' e'];
      simpl in H; subst; reflexivity || contradiction.
Qed.

Lemma SF2Prim_not_nan r : r <> S754_nan -> is_nan (SF2Prim r) = false.
Proof.
  destruct r as [[]|[]| |s m e]; try reflexivity; try congruence.
  intros _. apply not_nan_spec. unfold SF2Prim.
  assert (Prim2SF (Z.ldexp (of_uint63 (Uint63.of_Z (Z.pos m))) e) <> S754_nan) as H.
  { rewrite FloatLemmas.Z_ldexp_spec, of_uint63_spec.
    apply SFldexp_not_nan, binary_normalize_not_nan. }
  destruct s; [rewrite opp_spec; apply SFopp_not_nan |]; exact H.
Qed.

Lemma of_Z_not_nan z : is_nan (B64.of_Z z) = false.
Proof. apply SF2Prim_not_nan, binary_normalize_not_nan. Qed.

(** *** The conversion of integers *)

Lemma of_Z_of_uint63 z :
  0 <= z < 2 ^ 63 -> B64.of_Z z = of_uint63 (Uint63.of_Z z).
Proof.
  intros Hz. unfold B64.of_Z.
  rewrite <- (SF2Prim_Prim2SF (of_uint63 (Uint63.of_Z z))), of_uint63_spec.
  rewrite Uint63.of_Z_spec, Z.mod_small; [reflexivity |].
  exact Hz.
Qed.

Lemma binary_round_opp m e :
  binary_round prec emax true m e = SFopp (binary_round prec emax false m e).
Proof.
  unfold binary_round. destruct (shl_align _ _ _) as [m' e'].
  unfold binary_round_aux.
  destruct (shr_fexp prec emax (Z.pos m') e' loc_Exact) as [r1 e1].
  destruct (shr_fexp prec emax _ e1 loc_Exact) as [r2 e2].
  destruct (shr_m r2); [reflexivity | | reflexivity].
  destruct (e2 <=? emax - prec); reflexivity.
Qed.

Lemma SF2Prim_opp r : signed false r -> SF2Prim (SFopp r) = (- SF2Prim r)%float.
Proof.
  destruct r as [s|s| |s m e]; simpl; intros H; subst; try contradiction; reflexivity.
Qed.

Lemma of_Z_neg p : B64.of_Z (Z.neg p) = (- B64.of_Z (Z.pos p))%float.
Proof.
  unfold B64.of_Z. simpl binary_normalize.
  rewrite binary_round_opp. apply SF2Prim_opp, binary_round_signed.
Qed.

(** On the int64 range the conversion is the processor's. *)
Lemma of_Z_of_int64 z : - 2 ^ 63 <= z < 2 ^ 63 -> B64.of_Z z = B64.of_int64 z.
Proof.
  intros Hz. unfold B64.of_int64.
  destruct (Z.eqb_spec z (- 2 ^ 63)) as [->|Hne]; [vm_compute; reflexivity |].
  destruct (Z.ltb_spec z 0) as [Hneg|Hpos].
  - destruct z as [|p|p]; try lia.
    rewrite of_Z_neg. change (- Z.neg p) with (Z.pos p).
    rewrite of_Z_of_uint63; [reflexivity | lia].
  - apply of_Z_of_uint63. lia.
Qed.

Lemma of_int64_signed z :
  0 <= z < 2 ^ 63 -> signed false (Prim2SF (B64.of_int64 z)).
Proof.
  intros Hz. rewrite <- of_Z_of_int64 by lia.
  rewrite of_Z_of_uint63, of_uint63_spec by exact Hz.
  rewrite Uint63.of_Z_spec, Z.mod_small by exact Hz.
  destruct z as [|p|p]; [reflexivity | apply binary_round_signed | lia].
Qed.

Lemma mul_tenth_not_nan x : is_nan x = false -> is_nan (x * B64.tenth) = false.
Proof.
  rewrite !not_nan_spec, mul_spec.
  change (Prim2SF B64.tenth) with (S754_finite false 7205759403792794 (-56)).
  apply SFmul_finite_not_nan.
Qed.

End B64Facts.

(** ** Aggregations *)

Section Aggregations.

Lemma elem_of_dropna l x : x ∈ Series.dropna l <-> is_nan x = false /\ x ∈ l.
Proof. apply (list_elem_of_filter (fun y => is_nan y = false)). Qed.

Lemma fold_fmin l : forall x,
  is_nan x = false -> Forall (fun y => is_nan y = false) l ->
  fold_left Series.fmin l x ∈ x :: l /\
  forall y, y ∈ x :: l -> B64.le (fold_left Series.fmin l x) y.
Proof.
  induction l as [|a l IH]; simpl; intros x Hx Hl.
  - split; [left |]. intros y ->%list_elem_of_singleton. apply B64Facts.le_refl, Hx.
  - apply Forall_cons in Hl as [Ha Hl]. unfold Series.fmin at 2 4.
    destruct (x <? a)%float eqn:E.
    + destruct (IH x Hx Hl) as [Hin Hle]. split.
      * apply elem_of_cons in Hin as [->|Hin]; [left | right; right; exact Hin].
      * intros y [->|[->|Hy]%elem_of_cons]%elem_of_cons.
        -- apply Hle. left.
        -- eapply B64Facts.le_trans; [apply Hle; left | apply B64Facts.lt_le, E].
        -- apply Hle. right. exact Hy.
    + destruct (IH a Ha Hl) as [Hin Hle]. split.
      * right. exact Hin.
      * intros y [->|Hy]%elem_of_cons; [| apply Hle, Hy].
        eapply B64Facts.le_trans; [apply Hle; left |].
        apply B64Facts.not_lt_le; assumption.
Qed.

Lemma fold_fmax l : forall x,
  is_nan x = false -> Forall (fun y => is_nan y = false) l ->
  fold_left Series.fmax l x ∈ x :: l /\
  forall y, y ∈ x :: l -> B64.le y (fold_left Series.fmax l x).
Proof.
  induction l as [|a l IH]; simpl; intros x Hx Hl.
  - split; [left |]. intros y ->%list_elem_of_singleton. apply B64Facts.le_refl, Hx.
  - apply Forall_cons in Hl as [Ha Hl]. unfold Series.fmax at 2 4.
    destruct (a <? x)%float eqn:E.
    + destruct (IH x Hx Hl) as [Hin Hle]. split.
      * apply elem_of_cons in Hin as [->|Hin]; [left | right; right; exact Hin].
      * intros y [->|[->|Hy]%elem_of_cons]%elem_of_cons.
        -- apply Hle. left.
        -- eapply B64Facts.le_trans; [apply B64Facts.lt_le, E | apply Hle; left].
        -- apply Hle. right. exact Hy.
    + destruct (IH a Ha Hl) as [Hin Hle]. split.
      * right. exact Hin.
      * intros y [->|Hy]%elem_of_cons; [| apply Hle, Hy].
        eapply B64Facts.le_trans; [| apply Hle; left].
        apply B64Facts.not_lt_le; assumption.
Qed.

Lemma dropna_Forall l : Forall (fun y => is_nan y = false) (Series.dropna l).
Proof. apply Forall_forall. intros y Hy. apply elem_of_dropna in Hy. tauto. Qed.

Lemma nanmin_is_minimum l : is_minimum (Series.nanmin l) l.
Proof.
  unfold is_minimum, Series.nanmin.
  pose proof (dropna_Forall l) as H.
  destruct (Series.dropna l) as [|x r]; [reflexivity |].
  apply Forall_cons in H as [Hx Hr]. apply fold_fmin; assumption.
Qed.

Lemma nanmax_is_maximum l : is_maximum (Series.nanmax l) l.
Proof.
  unfold is_maximum, Series.nanmax.
  pose proof (dropna_Forall l) as H.
  destruct (Series.dropna l) as [|x r]; [reflexivity |].
  apply Forall_cons in H as [Hx Hr]. apply fold_fmax; assumption.
Qed.

End Aggregations.

(** ** Running the script, stage by stage *)

Lemma say_say l k w : say k (say l w) = say (l ++ k) w.
Proof. unfold say. simpl. rewrite app_assoc. reflexivity. Qed.

Lemma bind_ok {A B} (c : Py A) (k : A -> Py B) w w' a :
  c w = (w', inr a) -> (c ≫= k) w = k a w'.
Proof. unfold mbind, Py_bind, bind. intros ->. reflexivity. Qed.

Lemma bind_raise {A B} (c : Py A) (k : A -> Py B) w w' e :
  c w = (w', inl e) -> (c ≫= k) w = (w', inl e).
Proof. unfold mbind, Py_bind, bind. intros ->. reflexivity. Qed.

Lemma bind_inv {A B} (c : Py A) (k : A -> Py B) w w' r :
  (c ≫= k) w = (w', r) ->
  (exists e, c w = (w', inl e) /\ r = inl e) \/
  (exists w1 a, c w = (w1, inr a) /\ k a w1 = (w', r)).
Proof.
  unfold mbind, Py_bind, bind. destruct (c w) as [w1 [e|a]]; intros H.
  - left. exists e. injection H as -> <-. auto.
  - right. eauto.
Qed.

Lemma getitem_ok data key s w :
  columns data !! key = Some s -> getitem data key w = (w, inr s).
Proof. unfold getitem. intros ->. reflexivity. Qed.

Lemma read_csv_ok path data w :
  disk w !! path = Some (Table data) -> read_csv path w = (w, inr data).
Proof. unfold read_csv. intros ->. reflexivity. Qed.

Lemma print_ok s w : print s w = (say [s] w, inr tt).
Proof. reflexivity. Qed.

(** Rewrites a computation that starts with a step known to return. *)
Ltac step lem := erewrite bind_ok by (eapply lem; eassumption).

Lemma in_expected_columns c :
  bool_decide (c ∈ expected_columns) = true -> c ∈ expected_columns.
Proof. apply bool_decide_eq_true. Qed.

(** The column [c] of a table with the expected header. *)
Ltac column_at H c s Hs :=
  destruct (H c) as [s Hs]; [apply in_expected_columns; reflexivity |].

Lemma column_lookup data c s : columns data !! c = Some s -> column data c = s.
Proof. unfold column. intros ->. reflexivity. Qed.

Lemma has_header_lookup data c :
  has_header data -> bool_decide (c ∈ expected_columns) = true ->
  columns data !! c = Some (column data c).
Proof.
  intros Hh Hc. destruct (Hh c (in_expected_columns c Hc)) as [s Hs].
  rewrite (column_lookup data c s Hs). exact Hs.
Qed.

Section Stages.

Variable nansum : list float -> float.
Variable layout_error : Figure -> option string.

Lemma time_ok data sample w :
  columns data !! "Sample" = Some sample ->
  time data w = (w, inr (Series.mul_float sample B64.tenth)).
Proof. intros H. unfold time. step getitem_ok. reflexivity. Qed.

Lemma plot_column_ok data time pos col fmt fig y w :
  columns data !! col = Some y ->
  plot_column data time pos col fmt fig w =
    (w, inr (plt.on_axes pos (plt.plot time y fmt col) fig)).
Proof. intros H. unfold plot_column. step getitem_ok. reflexivity. Qed.

Lemma plot_acceleration_run data tm fig ax ay az w :
  columns data !! "AccelX" = Some ax ->
  columns data !! "AccelY" = Some ay ->
  columns data !! "AccelZ" = Some az ->
  plot_acceleration data tm fig w =
    (w, inr (plt.on_axes (0, 0)%nat
               (plt.decorate "Acceleration (g)" "Time (s)" "Acceleration (g)")
               (plt.on_axes (0, 0)%nat (plt.plot tm az "b-" "AccelZ")
                  (plt.on_axes (0, 0)%nat (plt.plot tm ay "g-" "AccelY")
                     (plt.on_axes (0, 0)%nat (plt.plot tm ax "r-" "AccelX") fig))))).
Proof.
  intros Hx Hy Hz. unfold plot_acceleration.
  do 3 step plot_column_ok. reflexivity.
Qed.

Lemma plot_gyroscope_run data tm fig gx gy gz w :
  columns data !! "GyroX" = Some gx ->
  columns data !! "GyroY" = Some gy ->
  columns data !! "GyroZ" = Some gz ->
  plot_gyroscope data tm fig w =
    (w, inr (plt.on_axes (0, 1)%nat
               (plt.decorate "Gyroscope (deg/s)" "Time (s)" "Angular Velocity (deg/s)")
               (plt.on_axes (0, 1)%nat (plt.plot tm gz "b-" "GyroZ")
                  (plt.on_axes (0, 1)%nat (plt.plot tm gy "g-" "GyroY")
                     (plt.on_axes (0, 1)%nat (plt.plot tm gx "r-" "GyroX") fig))))).
Proof.
  intros Hx Hy Hz. unfold plot_gyroscope.
  do 3 step plot_column_ok. reflexivity.
Qed.

Lemma plot_angles_run data tm fig roll pitch w :
  columns data !! "Roll" = Some roll ->
  columns data !! "Pitch" = Some pitch ->
  plot_angles data tm fig w =
    (w, inr (plt.on_axes (1, 0)%nat
               (plt.decorate "Orientation Angles (deg)" "Time (s)" "Angle (deg)")
               (plt.on_axes (1, 0)%nat (plt.plot tm pitch "orange" "Pitch")
                  (plt.on_axes (1, 0)%nat (plt.plot tm roll "purple" "Roll") fig)))).
Proof.
  intros Hr Hp. unfold plot_angles.
  do 2 step plot_column_ok. reflexivity.
Qed.

Lemma charts_compose tm ax ay az gx gy gz roll pitch mag :
  plot_magnitude tm mag
    (plt.on_axes (1, 0)%nat
       (plt.decorate "Orientation Angles (deg)" "Time (s)" "Angle (deg)")
    (plt.on_axes (1, 0)%nat (plt.plot tm pitch "orange" "Pitch")
    (plt.on_axes (1, 0)%nat (plt.plot tm roll "purple" "Roll")
    (plt.on_axes (0, 1)%nat
       (plt.decorate "Gyroscope (deg/s)" "Time (s)" "Angular Velocity (deg/s)")
    (plt.on_axes (0, 1)%nat (plt.plot tm gz "b-" "GyroZ")
    (plt.on_axes (0, 1)%nat (plt.plot tm gy "g-" "GyroY")
    (plt.on_axes (0, 1)%nat (plt.plot tm gx "r-" "GyroX")
    (plt.on_axes (0, 0)%nat
       (plt.decorate "Acceleration (g)" "Time (s)" "Acceleration (g)")
    (plt.on_axes (0, 0)%nat (plt.plot tm az "b-" "AccelZ")
    (plt.on_axes (0, 0)%nat (plt.plot tm ay "g-" "AccelY")
    (plt.on_axes (0, 0)%nat (plt.plot tm ax "r-" "AccelX")
       (plt.suptitle "MPU6050 Data Analysis" plt.subplots))))))))))))
  = drawing tm ax ay az gx gy gz roll pitch mag.
Proof. vm_compute. reflexivity. Qed.

Lemma accel_magnitude_ok data ax ay az w :
  columns data !! "AccelX" = Some ax ->
  columns data !! "AccelY" = Some ay ->
  columns data !! "AccelZ" = Some az ->
  accel_magnitude data w =
    (w, inr (Series.sqrt (Series.add (Series.add (Series.pow2 ax) (Series.pow2 ay))
                            (Series.pow2 az)))).
Proof.
  intros Hx Hy Hz. unfold accel_magnitude.
  do 3 step getitem_ok. reflexivity.
Qed.

Lemma print_stats_ok data label col p s w :
  columns data !! col = Some s ->
  print_stats nansum data label col p w = (say [stats_line nansum label p s] w, inr tt).
Proof. intros H. unfold print_stats. do 3 step getitem_ok. reflexivity. Qed.

Lemma iloc_last_ok s c w : Series.last_cell s = Some c -> iloc_last s w = (w, inr c).
Proof. unfold iloc_last. intros ->. reflexivity. Qed.

Lemma iloc_last_raise s w :
  Series.last_cell s = None ->
  iloc_last s w = (w, inl (IndexError "single positional indexer is out-of-bounds")).
Proof. unfold iloc_last. intros ->. reflexivity. Qed.

Lemma report_ok data time t ax ay az gx gy gz roll pitch w :
  Series.last_cell time = Some t ->
  columns data !! "AccelX" = Some ax ->
  columns data !! "AccelY" = Some ay ->
  columns data !! "AccelZ" = Some az ->
  columns data !! "GyroX" = Some gx ->
  columns data !! "GyroY" = Some gy ->
  columns data !! "GyroZ" = Some gz ->
  columns data !! "Roll" = Some roll ->
  columns data !! "Pitch" = Some pitch ->
  report nansum data time w =
    (say (report_lines nansum (index_size data) t ax ay az gx gy gz roll pitch) w, inr tt).
Proof.
  intros Ht Hax Hay Haz Hgx Hgy Hgz Hr Hp. unfold report.
  step iloc_last_ok. erewrite bind_ok by apply print_ok.
  step iloc_last_ok. erewrite bind_ok by apply print_ok.
  erewrite bind_ok by apply print_ok.
  do 3 step print_stats_ok.
  erewrite bind_ok by apply print_ok.
  do 3 step print_stats_ok.
  erewrite bind_ok by apply print_ok.
  step print_stats_ok.
  erewrite print_stats_ok by eassumption.
  rewrite !say_say. reflexivity.
Qed.

Lemma report_raise data time w :
  Series.last_cell time = None ->
  report nansum data time w =
    (w, inl (IndexError "single positional indexer is out-of-bounds")).
Proof.
  intros H. unfold report.
  erewrite bind_raise by (apply iloc_last_raise, H). reflexivity.
Qed.

Lemma tight_layout_ok fig w :
  laid_out layout_error fig -> tight_layout layout_error fig w = (w, inr tt).
Proof.
  unfold tight_layout. intros [-> | H]; [reflexivity |].
  rewrite H. destruct (moderate_figure fig); reflexivity.
Qed.

Lemma tight_layout_raise fig m w :
  layout_raises layout_error fig m ->
  tight_layout layout_error fig w = (w, inl (OtherException m)).
Proof. unfold tight_layout. intros [-> ->]. reflexivity. Qed.

(** The layout returns on a figure or raises on it. *)
Lemma laid_out_or_raises fig :
  laid_out layout_error fig \/ exists m, layout_raises layout_error fig m.
Proof.
  unfold laid_out, layout_raises.
  destruct (moderate_figure fig); [left; left; reflexivity |].
  destruct (layout_error fig) as [m|]; [right; exists m | left]; auto.
Qed.

Lemma figure_of_columns data sample ax ay az gx gy gz roll pitch :
  columns data !! "Sample" = Some sample ->
  columns data !! "AccelX" = Some ax ->
  columns data !! "AccelY" = Some ay ->
  columns data !! "AccelZ" = Some az ->
  columns data !! "GyroX" = Some gx ->
  columns data !! "GyroY" = Some gy ->
  columns data !! "GyroZ" = Some gz ->
  columns data !! "Roll" = Some roll ->
  columns data !! "Pitch" = Some pitch ->
  figure_of data =
    drawing (Series.mul_float sample B64.tenth) ax ay az gx gy gz roll pitch
      (magnitude_of ax ay az).
Proof.
  intros Hs Hax Hay Haz Hgx Hgy Hgz Hr Hp. unfold figure_of.
  rewrite (column_lookup _ _ _ Hs), (column_lookup _ _ _ Hax),
    (column_lookup _ _ _ Hay), (column_lookup _ _ _ Haz), (column_lookup _ _ _ Hgx),
    (column_lookup _ _ _ Hgy), (column_lookup _ _ _ Hgz), (column_lookup _ _ _ Hr),
    (column_lookup _ _ _ Hp).
  reflexivity.
Qed.

(** From a table with the expected header the script draws its figure
    and reaches line 59. *)
Lemma body_reaches_layout w data :
  disk w !! filename = Some (Table data) ->
  has_header data ->
  body nansum layout_error w =
    (tight_layout layout_error (figure_of data);;
     report nansum data (Series.mul_float (column data "Sample") B64.tenth);;
     show (figure_of data);;
     savefig output (figure_of data);;
     print (nl +:+ "Plot saved as: mpu6050_analysis.png"))
      (say [loaded_line data] w).
Proof.
  intros Hd Hh.
  pose proof (fun c => has_header_lookup data c Hh) as H.
  unfold body.
  step read_csv_ok. erewrite bind_ok by apply print_ok.
  erewrite bind_ok by (apply time_ok, H; reflexivity).
  erewrite bind_ok by (apply plot_acceleration_run; apply H; reflexivity).
  erewrite bind_ok by (apply plot_gyroscope_run; apply H; reflexivity).
  erewrite bind_ok by (apply plot_angles_run; apply H; reflexivity).
  erewrite bind_ok by (apply accel_magnitude_ok; apply H; reflexivity).
  cbv zeta. rewrite charts_compose. reflexivity.
Qed.

Lemma column_report_ok data time t w :
  has_header data ->
  Series.last_cell time = Some t ->
  report nansum data time w =
    (say (report_lines nansum (index_size data) t
            (column data "AccelX") (column data "AccelY") (column data "AccelZ")
            (column data "GyroX") (column data "GyroY") (column data "GyroZ")
            (column data "Roll") (column data "Pitch")) w, inr tt).
Proof.
  intros Hh Ht. apply report_ok; try exact Ht;
    apply has_header_lookup; try exact Hh; reflexivity.
Qed.

(** Nothing raises: the report goes to the console and the figure to
    disk. *)
Lemma body_draws w data t :
  disk w !! filename = Some (Table data) ->
  has_header data ->
  laid_out layout_error (figure_of data) ->
  Series.last_cell (Series.mul_float (column data "Sample") B64.tenth) = Some t ->
  body nansum layout_error w =
    (after {| printed := run_lines nansum data t; saved := Some (figure_of data) |} w,
     inr tt).
Proof.
  intros Hd Hh Hl Ht. rewrite (body_reaches_layout w data Hd Hh).
  erewrite bind_ok by (apply tight_layout_ok, Hl).
  erewrite bind_ok by (apply column_report_ok; [exact Hh | exact Ht]).
  unfold show, savefig. erewrite bind_ok by reflexivity.
  erewrite bind_ok by reflexivity. rewrite print_ok.
  unfold after, say, run_lines, success_lines, loaded_line. simpl.
  rewrite <- !app_assoc. reflexivity.
Qed.

Lemma body_layout_raise w data m :
  disk w !! filename = Some (Table data) ->
  has_header data ->
  layout_raises layout_error (figure_of data) m ->
  body nansum layout_error w = (say [loaded_line data] w, inl (OtherException m)).
Proof.
  intros Hd Hh Hl. rewrite (body_reaches_layout w data Hd Hh).
  apply bind_raise, tight_layout_raise, Hl.
Qed.

Lemma body_no_time w data :
  disk w !! filename = Some (Table data) ->
  has_header data ->
  laid_out layout_error (figure_of data) ->
  Series.last_cell (Series.mul_float (column data "Sample") B64.tenth) = None ->
  body nansum layout_error w =
    (say [loaded_line data] w,
     inl (IndexError "single positional indexer is out-of-bounds")).
Proof.
  intros Hd Hh Hl Ht. rewrite (body_reaches_layout w data Hd Hh).
  erewrite bind_ok by (apply tight_layout_ok, Hl).
  apply bind_raise, report_raise, Ht.
Qed.

Lemma print_usage_ok w : print_usage w = (say usage w, inr tt).
Proof.
  unfold print_usage. do 4 erewrite bind_ok by apply print_ok.
  rewrite print_ok, !say_say. reflexivity.
Qed.

Lemma main_of_body_ok w w' :
  body nansum layout_error w = (w', inr tt) ->
  main nansum layout_error w = (say usage w', inr tt).
Proof.
  intros H. unfold main.
  erewrite bind_ok by (unfold try_except; rewrite H; reflexivity).
  apply print_usage_ok.
Qed.

Lemma main_of_body_raise w w' e w'' :
  body nansum layout_error w = (w', inl e) -> handler e w' = (w'', inr tt) ->
  main nansum layout_error w = (say usage w'', inr tt).
Proof.
  intros H Hh. unfold main.
  erewrite bind_ok by (unfold try_except; rewrite H; exact Hh).
  apply print_usage_ok.
Qed.

Lemma handler_ok e w : exists lines, handler e w = (say lines w, inr tt).
Proof.
  destruct e; simpl; eexists;
    repeat erewrite bind_ok by apply print_ok;
    rewrite print_ok, ?say_say; reflexivity.
Qed.

End Stages.

Lemma len_astype_float s : length (Series.astype_float s) = Series.len s.
Proof. destruct s; simpl; rewrite ?length_fmap; reflexivity. Qed.

Lemma len_mul_float s c : Series.len (Series.mul_float s c) = Series.len s.
Proof. simpl. rewrite length_fmap. apply len_astype_float. Qed.

Lemma len_pow2 s : Series.len (Series.pow2 s) = Series.len s.
Proof. destruct s; simpl; rewrite length_fmap; reflexivity. Qed.

Lemma len_add s t :
  Series.len (Series.add s t) = Nat.min (Series.len s) (Series.len t).
Proof.
  destruct s, t; simpl; rewrite length_zip_with, ?length_fmap; reflexivity.
Qed.

Lemma len_sqrt s : Series.len (Series.sqrt s) = Series.len s.
Proof. simpl. rewrite length_fmap. apply len_astype_float. Qed.

Lemma len_magnitude_of ax ay az n :
  Series.len ax = n -> Series.len ay = n -> Series.len az = n ->
  Series.len (magnitude_of ax ay az) = n.
Proof.
  intros Hx Hy Hz. unfold magnitude_of.
  rewrite len_sqrt, !len_add, !len_pow2. lia.
Qed.

(** *** Cells, row by row *)

Lemma length_cells s : length (Series.cells s) = Series.len s.
Proof. destruct s; simpl; apply length_fmap. Qed.

Lemma to_float_as_float64 c : in_int64 c -> to_float c = as_float64 c.
Proof. destruct c as [z|x]; simpl; [apply B64Facts.of_Z_of_int64 | reflexivity]. Qed.

Lemma astype_float_lookup s i c :
  Series.cells s !! i = Some c -> Series.astype_float s !! i = Some (to_float c).
Proof.
  destruct s as [l|l]; simpl; rewrite !list_lookup_fmap;
    destruct (l !! i); simpl; intros [= <-]; reflexivity.
Qed.

Lemma as_float64_not_nan c : missing c = false -> is_nan (as_float64 c) = false.
Proof.
  destruct c as [z|x]; simpl; [intros _ | auto].
  unfold B64.of_int64.
  destruct (z =? - 2 ^ 63); [reflexivity |].
  destruct (z <? 0).
  - apply B64Facts.not_nan_spec. rewrite opp_spec, of_uint63_spec.
    apply SFopp_not_nan, binary_normalize_not_nan.
  - apply B64Facts.not_nan_spec. rewrite of_uint63_spec.
    apply binary_normalize_not_nan.
Qed.

Lemma wrap64_in_int64 z : - 2 ^ 63 <= wrap64 z < 2 ^ 63.
Proof.
  unfold wrap64.
  pose proof (Z.mod_pos_bound (z + 2 ^ 63) (2 ^ 64) ltac:(lia)). lia.
Qed.

Lemma wrap64_small z : - 2 ^ 63 <= z < 2 ^ 63 -> wrap64 z = z.
Proof. intros H. unfold wrap64. rewrite Z.mod_small; lia. Qed.

Lemma square_in_int64 c : in_int64 (square c).
Proof. destruct c; simpl; [apply wrap64_in_int64 | exact I]. Qed.

Lemma plus_in_int64 a b : in_int64 (plus a b).
Proof. destruct a, b; simpl; try exact I. apply wrap64_in_int64. Qed.

Lemma iloc_pow2 s i c :
  Series.iloc s i = Some c -> Series.iloc (Series.pow2 s) i = Some (square c).
Proof.
  unfold Series.iloc. destruct s as [l|l]; simpl; rewrite !list_lookup_fmap;
    destruct (l !! i); simpl; intros [= <-]; reflexivity.
Qed.

Lemma iloc_add s t i a b :
  Series.iloc s i = Some a -> Series.iloc t i = Some b ->
  in_int64 a -> in_int64 b ->
  Series.iloc (Series.add s t) i = Some (plus a b).
Proof.
  unfold Series.iloc. intros Ha Hb Ia Ib.
  pose proof (astype_float_lookup s i a Ha) as Fa.
  pose proof (astype_float_lookup t i b Hb) as Fb.
  rewrite (to_float_as_float64 a Ia) in Fa.
  rewrite (to_float_as_float64 b Ib) in Fb.
  destruct s as [l|l], t as [k|k]; simpl in *;
    rewrite !list_lookup_fmap in *; rewrite ?lookup_zip_with, ?list_lookup_fmap;
    destruct (l !! i), (k !! i); simpl in *;
    try discriminate; injection Ha as <-; injection Hb as <-; simpl in *;
    try injection Fa as <-; try injection Fb as <-; reflexivity.
Qed.

Lemma iloc_sqrt s i c :
  Series.iloc s i = Some c -> in_int64 c ->
  Series.iloc (Series.sqrt s) i = Some (np_float64 (sqrt (as_float64 c))).
Proof.
  unfold Series.iloc. intros Hc Ic.
  pose proof (astype_float_lookup s i c Hc) as F.
  rewrite (to_float_as_float64 c Ic) in F.
  simpl. rewrite !list_lookup_fmap, F. reflexivity.
Qed.

(** The magnitude at a row is the norm of the three cells of the row. *)
Lemma iloc_magnitude_of ax ay az i x y z :
  Series.iloc ax i = Some x -> Series.iloc ay i = Some y -> Series.iloc az i = Some z ->
  Series.iloc (magnitude_of ax ay az) i = Some (np_float64 (norm x y z)).
Proof.
  intros Hx Hy Hz. unfold magnitude_of, norm.
  apply iloc_sqrt; [| apply plus_in_int64].
  apply iloc_add; [| apply iloc_pow2, Hz | apply plus_in_int64 | apply square_in_int64].
  apply iloc_add; auto using iloc_pow2, square_in_int64.
Qed.

Lemma iloc_is_Some s i : (i < Series.len s)%nat -> is_Some (Series.iloc s i).
Proof. intros H. apply lookup_lt_is_Some_2. rewrite length_cells. exact H. Qed.

(** *** The sign of the magnitude *)

(** The square of an ordinary cell is an integer between 0 and 10^18, or
    a binary64 number with a plus sign; so are the sums of such squares,
    up to the bounds added. *)
Lemma ordinary_square c :
  ordinary c ->
  match square c with
  | np_int64 z => 0 <= z <= 10 ^ 18
  | np_float64 x => signed false (Prim2SF x)
  end.
Proof.
  destruct c as [z|x]; simpl; intros H.
  - rewrite wrap64_small by nia. nia.
  - apply B64Facts.mul_self_signed, H.
Qed.

Lemma plus_nonneg a b m n :
  0 <= m -> 0 <= n -> m + n < 2 ^ 63 ->
  match a with np_int64 z => 0 <= z <= m | np_float64 x => signed false (Prim2SF x) end ->
  match b with np_int64 z => 0 <= z <= n | np_float64 x => signed false (Prim2SF x) end ->
  match plus a b with
  | np_int64 z => 0 <= z <= m + n
  | np_float64 x => signed false (Prim2SF x)
  end.
Proof.
  destruct a as [x|x], b as [y|y]; simpl; intros Hm Hn Hmn Ha Hb.
  - rewrite wrap64_small by lia. lia.
  - apply B64Facts.add_signed; [apply B64Facts.of_int64_signed; lia | exact Hb].
  - apply B64Facts.add_signed; [exact Ha | apply B64Facts.of_int64_signed; lia].
  - apply B64Facts.add_signed; assumption.
Qed.

Lemma norm_nonneg x y z :
  ordinary x -> ordinary y -> ordinary z -> B64.le 0 (norm x y z).
Proof.
  intros Hx Hy Hz. unfold norm.
  pose proof (plus_nonneg _ _ (10 ^ 18) (10 ^ 18) ltac:(lia) ltac:(lia) ltac:(lia)
                (ordinary_square x Hx) (ordinary_square y Hy)) as Hxy.
  pose proof (plus_nonneg _ _ (10 ^ 18 + 10 ^ 18) (10 ^ 18)
                ltac:(lia) ltac:(lia) ltac:(lia)
                Hxy (ordinary_square z Hz)) as H.
  apply B64Facts.signed_nonneg, B64Facts.sqrt_signed.
  destruct (plus (plus _ _) _) as [n|v]; simpl;
    [apply B64Facts.of_int64_signed; lia | exact H].
Qed.

Lemma square_missing c :
  missing c = true -> exists v, square c = np_float64 v /\ is_nan v = true.
Proof.
  destruct c as [z|x]; simpl; [discriminate |].
  intros H. eexists. split; [reflexivity | apply B64Facts.mul_self_nan, H].
Qed.

Lemma plus_nan_l v b :
  is_nan v = true -> exists u, plus (np_float64 v) b = np_float64 u /\ is_nan u = true.
Proof.
  intros H. destruct b; simpl; eexists; (split; [reflexivity |]);
    apply B64Facts.add_nan_l, H.
Qed.

Lemma plus_nan_r a v :
  is_nan v = true -> exists u, plus a (np_float64 v) = np_float64 u /\ is_nan u = true.
Proof.
  intros H. destruct a; simpl; eexists; (split; [reflexivity |]);
    apply B64Facts.add_nan_r, H.
Qed.

Lemma norm_missing x y z :
  missing x || missing y || missing z = true -> is_nan (norm x y z) = true.
Proof.
  intros H. unfold norm. apply B64Facts.sqrt_nan.
  apply orb_true_iff in H as [H|H]; [apply orb_true_iff in H as [H|H] |].
  - destruct (square_missing x H) as (v & -> & Hv).
    destruct (plus_nan_l v (square y) Hv) as (u & -> & Hu).
    destruct (plus_nan_l u (square z) Hu) as (t & -> & Ht). exact Ht.
  - destruct (square_missing y H) as (v & -> & Hv).
    destruct (plus_nan_r (square x) v Hv) as (u & -> & Hu).
    destruct (plus_nan_l u (square z) Hu) as (t & -> & Ht). exact Ht.
  - destruct (square_missing z H) as (v & -> & Hv).
    destruct (plus_nan_r (plus (square x) (square y)) v Hv) as (t & -> & Ht). exact Ht.
Qed.

(** *** The sample tables are what they are meant to be *)

Lemma frame_valid n cols :
  Forall (fun kv => Series.len kv.2 = n) cols -> df_valid (frame n cols).
Proof.
  intros H k s Hk. simpl in Hk.
  apply elem_of_list_to_map_2 in Hk.
  rewrite Forall_forall in H. apply (H _ Hk).
Qed.

Lemma frame_int64 n cols :
  Z.of_nat n < 2 ^ 63 ->
  Forall (fun kv => Forall in_int64 (Series.cells kv.2)) cols ->
  df_int64 (frame n cols).
Proof.
  intros Hn H. split; [exact Hn |]. intros k s Hk. simpl in Hk.
  apply elem_of_list_to_map_2 in Hk.
  rewrite Forall_forall in H. apply (H _ Hk).
Qed.

Lemma has_header_Forall data :
  Forall (fun c => is_Some (columns data !! c)) expected_columns -> has_header data.
Proof. intros H c Hc. rewrite Forall_forall in H. apply H, Hc. Qed.

Ltac frame_wf :=
  split;
  [ apply has_header_Forall; repeat (constructor; [eexists; reflexivity |]); constructor
  | apply frame_valid; repeat constructor
  | apply frame_int64; [lia |];
    simpl;
    repeat first [apply Forall_nil_2 | apply Forall_cons_2 | exact I
                 | unfold in_int64; lia] ].

Lemma three_rows_wf : well_formed three_rows.
Proof. frame_wf. Qed.

Lemma missing_cell_wf : well_formed missing_cell.
Proof. frame_wf. Qed.

(** *** The properties the specification states *)

(** C1.  For every well-formed dataset the time series is [Sample * 0.1]
    row by row, whether pandas loaded [Sample] as an int64 or as a float64
    column: it has one cell per row, and at each row the cell is the
    binary64 product of the sample cell, converted as the processor
    converts an int64, and the binary64 number nearest to one tenth.
    Where the sample cell is not missing the product is a number, so the
    two are also equal as IEEE values. *)
Theorem time_is_sample_times_tenth (data : DataFrame) (w : World) :
  well_formed data ->
  exists sample times,
    columns data !! "Sample" = Some sample /\
    time data w = (w, inr times) /\
    Series.len times = index_size data /\
    forall i, (i < index_size data)%nat ->
      exists c t,
        Series.iloc sample i = Some c /\
        Series.iloc times i = Some (np_float64 t) /\
        t = (as_float64 c * 0x1.999999999999ap-4)%float /\
        (missing c = false -> B64.eq t (as_float64 c * 0x1.999999999999ap-4)).
Proof.
  intros [Hh Hv [_ Hi]].
  column_at Hh "Sample" sample Hs.
  pose proof (Hv _ _ Hs) as Hlen. pose proof (Hi _ _ Hs) as Hint.
  simpl in Hlen, Hint.
  exists sample, (Series.mul_float sample B64.tenth).
  split; [exact Hs |]. split; [apply time_ok, Hs |].
  split; [rewrite len_mul_float; exact Hlen |].
  intros i Hlt. rewrite <- Hlen in Hlt.
  destruct (iloc_is_Some sample i Hlt) as [c Hc].
  pose proof (astype_float_lookup sample i c Hc) as Hf.
  rewrite Forall_forall in Hint.
  rewrite (to_float_as_float64 c (Hint c (list_elem_of_lookup_2 _ _ _ Hc))) in Hf.
  exists c, (as_float64 c * B64.tenth)%float.
  split; [exact Hc |]. split; [| split; [reflexivity |]].
  - unfold Series.iloc. simpl. rewrite !list_lookup_fmap, Hf. reflexivity.
  - intros Hm.
    apply B64Facts.eq_refl, B64Facts.mul_tenth_not_nan, as_float64_not_nan, Hm.
Qed.

Lemma time_is_sample_times_tenth_witness :
  exists sample times,
    columns three_rows !! "Sample" = Some sample /\
    time three_rows (boot None) = (boot None, inr times) /\
    Series.len times = index_size three_rows /\
    forall i, (i < index_size three_rows)%nat ->
      exists c t,
        Series.iloc sample i = Some c /\
        Series.iloc times i = Some (np_float64 t) /\
        t = (as_float64 c * 0x1.999999999999ap-4)%float /\
        (missing c = false -> B64.eq t (as_float64 c * 0x1.999999999999ap-4)).
Proof. apply (time_is_sample_times_tenth three_rows (boot None)). frame_wf. Defined.

(** C2, as amended.  For every well-formed dataset the magnitude series
    has one cell per row, and at each row it is the Euclidean norm of the
    three acceleration cells, [sqrt (x * x + y * y + z * z)], the squares
    and the sums computed in the dtypes of the columns: binary64 for
    float64 columns, 64-bit integers that wrap around for int64 columns,
    converted to binary64 when added to a binary64 number and before the
    square root.  It is NaN when one of the three cells is missing,
    [>= 0] when none is missing and every integer among them is at most
    10^9 in magnitude, and in every row one or the other. *)
Theorem magnitude_is_norm (data : DataFrame) (w : World) :
  well_formed data ->
  exists ax ay az mag,
    columns data !! "AccelX" = Some ax /\
    columns data !! "AccelY" = Some ay /\
    columns data !! "AccelZ" = Some az /\
    accel_magnitude data w = (w, inr mag) /\
    Series.len mag = index_size data /\
    forall i, (i < index_size data)%nat ->
      exists x y z m,
        Series.iloc ax i = Some x /\ Series.iloc ay i = Some y /\
        Series.iloc az i = Some z /\
        Series.iloc mag i = Some (np_float64 m) /\
        m = norm x y z /\
        (is_nan m = true \/ B64.le 0 m) /\
        (missing x || missing y || missing z = true -> is_nan m = true) /\
        (ordinary x -> ordinary y -> ordinary z -> B64.le 0 m).
Proof.
  intros [Hh Hv _].
  column_at Hh "AccelX" ax Hax. column_at Hh "AccelY" ay Hay.
  column_at Hh "AccelZ" az Haz.
  pose proof (Hv _ _ Hax) as Lx. pose proof (Hv _ _ Hay) as Ly.
  pose proof (Hv _ _ Haz) as Lz. simpl in Lx, Ly, Lz.
  exists ax, ay, az, (magnitude_of ax ay az). do 3 (split; [assumption |]).
  split; [apply accel_magnitude_ok; assumption |].
  split; [apply len_magnitude_of; assumption |].
  intros i Hi.
  destruct (iloc_is_Some ax i) as [x Hx]; [lia |].
  destruct (iloc_is_Some ay i) as [y Hy]; [lia |].
  destruct (iloc_is_Some az i) as [z Hz]; [lia |].
  exists x, y, z, (norm x y z). do 3 (split; [assumption |]).
  split; [apply iloc_magnitude_of; assumption |].
  split; [reflexivity |].
  split; [apply B64Facts.sqrt_nan_or_nonneg |].
  split; [apply norm_missing | apply norm_nonneg].
Qed.

(** C2, as stated, fails on a table with a missing acceleration cell:
    the dataset is well formed, its magnitude is NaN, and NaN is not
    [>= 0]. *)
Lemma magnitude_of_missing_cell :
  well_formed missing_cell /\
  accel_magnitude missing_cell (boot None) = (boot None, inr (Float64Series [nan])) /\
  ~ B64.le 0 nan.
Proof.
  split; [exact missing_cell_wf |]. split.
  - vm_compute. reflexivity.
  - apply B64Facts.nan_not_nonneg. reflexivity.
Qed.

(** The squares of an int64 column wrap around: the magnitude of the
    integer cells 3037000500, 0 and 0 is the root of a negative number. *)
Example wrapped_squares_have_no_root :
  norm (np_int64 3037000500) (np_int64 0) (np_int64 0) = nan.
Proof. vm_compute. reflexivity. Qed.

Lemma magnitude_is_norm_witness :
  exists ax ay az mag,
    columns three_rows !! "AccelX" = Some ax /\
    columns three_rows !! "AccelY" = Some ay /\
    columns three_rows !! "AccelZ" = Some az /\
    accel_magnitude three_rows (boot None) = (boot None, inr mag) /\
    Series.len mag = index_size three_rows /\
    forall i, (i < index_size three_rows)%nat ->
      exists x y z m,
        Series.iloc ax i = Some x /\ Series.iloc ay i = Some y /\
        Series.iloc az i = Some z /\
        Series.iloc mag i = Some (np_float64 m) /\
        m = norm x y z /\
        (is_nan m = true \/ B64.le 0 m) /\
        (missing x || missing y || missing z = true -> is_nan m = true) /\
        (ordinary x -> ordinary y -> ordinary z -> B64.le 0 m).
Proof. apply (magnitude_is_norm three_rows (boot None)). frame_wf. Defined.

(** *** Runs on a table that has every expected column *)

Section Runs.

Variable nansum : list float -> float.
Variable layout_error : Figure -> option string.

(** A table with the expected header and at least one row, whose figure
    the layout accepts: nothing raises, the report goes to the console
    and the figure to disk. *)
Lemma main_ok w data t :
  disk w !! filename = Some (Table data) ->
  has_header data ->
  laid_out layout_error (figure_of data) ->
  Series.last_cell (Series.mul_float (column data "Sample") B64.tenth) = Some t ->
  main nansum layout_error w =
    (after {| printed := run_lines nansum data t ++ usage;
              saved := Some (figure_of data) |} w, inr tt).
Proof.
  intros Hd Hh Hl Ht.
  rewrite (main_of_body_ok nansum layout_error _ _
             (body_draws nansum layout_error w data t Hd Hh Hl Ht)).
  unfold after, say. simpl. rewrite <- app_assoc. reflexivity.
Qed.

(** The layout raises: the run reports the exception and saves nothing. *)
Lemma main_layout_raise w data m :
  disk w !! filename = Some (Table data) ->
  has_header data ->
  layout_raises layout_error (figure_of data) m ->
  main nansum layout_error w =
    (say ([loaded_line data; "ERROR: " +:+ m] ++ usage) w, inr tt).
Proof.
  intros Hd Hh Hl.
  assert (handler (OtherException m) (say [loaded_line data] w) =
            (say ["ERROR: " +:+ m] (say [loaded_line data] w), inr tt)) as Hm
    by reflexivity.
  rewrite (main_of_body_raise nansum layout_error _ _ _ _
             (body_layout_raise nansum layout_error w data m Hd Hh Hl) Hm).
  rewrite !say_say. reflexivity.
Qed.

Lemma three_rows_run w data sample :
  disk w !! filename = Some (Table data) ->
  df_valid data ->
  has_header data ->
  columns data !! "Sample" = Some sample ->
  holds sample [0; 1; 2] ->
  laid_out layout_error (figure_of data) ->
  exists rest,
    console (main nansum layout_error w).1 =
      console w ++
      ["Data loaded: 3 samples"; "Duration: 0.2 seconds"; "Sample rate: 15.0 Hz"] ++
      rest.
Proof.
  intros Hd Hv Hh Hs Hsample Hl.
  assert (index_size data = 3%nat) as Hn.
  { rewrite <- (Hv _ _ Hs). destruct Hsample as [-> | ->]; reflexivity. }
  rewrite (main_ok w data (np_float64 (B64.of_Z 2 * B64.tenth)) Hd Hh Hl);
    [| rewrite (column_lookup data _ _ Hs); destruct Hsample as [-> | ->]; reflexivity].
  eexists. simpl console.
  unfold run_lines, success_lines, report_lines. rewrite Hn.
  change ("Data loaded: " +:+ B64.decimal (Z.of_nat 3) +:+ " samples")
    with "Data loaded: 3 samples".
  replace (B64.format_f 1 (to_float (np_float64 (B64.of_Z 2 * B64.tenth))))
    with "0.2" by (vm_compute; reflexivity).
  replace (B64.format_f 1 (truediv 3 (np_float64 (B64.of_Z 2 * B64.tenth))))
    with "15.0" by (vm_compute; reflexivity).
  reflexivity.
Qed.

End Runs.

(** C3.  On the three rows [Sample = 0, 1, 2], sampled 0.1 s apart, the
    reporter prints a sample rate of 15.0 Hz: it divides the number of
    rows, and not of intervals, by the duration. *)
Theorem sample_rate_of_three_rows
    (nansum : list float -> float) (layout_error : Figure -> option string) :
  exists rest,
    console (main nansum layout_error (boot (Some (Table three_rows)))).1 =
      ["Data loaded: 3 samples"; "Duration: 0.2 seconds"; "Sample rate: 15.0 Hz"] ++ rest.
Proof.
  apply (three_rows_run nansum layout_error (boot (Some (Table three_rows))) three_rows
           (Int64Series [0; 1; 2])).
  - reflexivity.
  - apply three_rows_wf.
  - apply wf_header, three_rows_wf.
  - reflexivity.
  - left. reflexivity.
  - left. vm_compute. reflexivity.
Qed.

(** C4, as amended.  On a table whose [Sample] column reads [0, 1, 2] and
    whose acceleration columns read [0, 0, 0], [0, 0, 0] and [1, 1, 1],
    whether pandas loads them as int64 or as float64 columns and whatever
    the other expected columns hold, the magnitude series is [1, 1, 1].
    When [plt.tight_layout()] returns on the figure, the second line of
    the run is the duration, 0.2 seconds; when it raises, the second line
    is the generic error with the message of the exception, the usage
    instructions follow and no duration is printed. *)
Theorem three_rows_magnitude_and_duration
    (nansum : list float -> float) (layout_error : Figure -> option string)
    (w : World) (data : DataFrame) (sample ax ay az : Series) :
  disk w !! filename = Some (Table data) ->
  df_valid data ->
  has_header data ->
  columns data !! "Sample" = Some sample -> holds sample [0; 1; 2] ->
  columns data !! "AccelX" = Some ax -> holds ax [0; 0; 0] ->
  columns data !! "AccelY" = Some ay -> holds ay [0; 0; 0] ->
  columns data !! "AccelZ" = Some az -> holds az [1; 1; 1] ->
  accel_magnitude data w = (w, inr (Float64Series [1; 1; 1]%float)) /\
  ((laid_out layout_error (figure_of data) /\
    exists rest,
      console (main nansum layout_error w).1 =
        console w ++ ["Data loaded: 3 samples"; "Duration: 0.2 seconds"] ++ rest) \/
   (exists m,
      layout_raises layout_error (figure_of data) m /\
      console (main nansum layout_error w).1 =
        console w ++ ["Data loaded: 3 samples"; "ERROR: " +:+ m] ++ usage)).
Proof.
  intros Hd Hv Hh Hs Hsample Hx Hax Hy Hay Hz Haz. split.
  - erewrite accel_magnitude_ok by eassumption.
    destruct Hax as [-> | ->], Hay as [-> | ->], Haz as [-> | ->];
      vm_compute; reflexivity.
  - destruct (laid_out_or_raises layout_error (figure_of data)) as [Hl|[m Hl]].
    + left. split; [exact Hl |].
      destruct (three_rows_run nansum layout_error w data sample Hd Hv Hh Hs Hsample Hl)
        as [rest Hr].
      exists ("Sample rate: 15.0 Hz" :: rest). exact Hr.
    + right. exists m. split; [exact Hl |].
      rewrite (main_layout_raise nansum layout_error w data m Hd Hh Hl).
      unfold loaded_line.
      replace (index_size data) with 3%nat; [reflexivity |].
      rewrite <- (Hv _ _ Hs). destruct Hsample as [-> | ->]; reflexivity.
Qed.

(** C4, as stated, fails on the three rows with angular velocities of
    1e308 and -1e308: the table has the columns the claim names, with the
    cells it names, and every other expected column, yet the layout of the
    figure raises and the run prints the generic error and no duration. *)
Lemma three_rows_off_scale_no_duration :
  df_valid three_rows_off_scale /\
  has_header three_rows_off_scale /\
  columns three_rows_off_scale !! "Sample" = Some (Int64Series [0; 1; 2]) /\
  columns three_rows_off_scale !! "AccelX" = Some (Float64Series [0; 0; 0]%float) /\
  columns three_rows_off_scale !! "AccelY" = Some (Float64Series [0; 0; 0]%float) /\
  columns three_rows_off_scale !! "AccelZ" = Some (Float64Series [1; 1; 1]%float) /\
  console (main Series.np_nansum overflowing
             (boot (Some (Table three_rows_off_scale)))).1 =
    ["Data loaded: 3 samples"; "ERROR: arange: cannot compute length"] ++ usage /\
  "Duration: 0.2 seconds" ∉
    console (main Series.np_nansum overflowing
               (boot (Some (Table three_rows_off_scale)))).1.
Proof.
  assert (well_formed three_rows_off_scale) as [Hh Hv _] by frame_wf.
  do 2 (split; [assumption |]). do 4 (split; [reflexivity |]).
  assert (console (main Series.np_nansum overflowing
                     (boot (Some (Table three_rows_off_scale)))).1 =
            ["Data loaded: 3 samples"; "ERROR: arange: cannot compute length"] ++ usage)
    as Hc.
  { rewrite (main_layout_raise Series.np_nansum overflowing
               (boot (Some (Table three_rows_off_scale))) three_rows_off_scale
               "arange: cannot compute length");
      [reflexivity | reflexivity | exact Hh |].
    split; vm_compute; reflexivity. }
  split; [exact Hc |]. rewrite Hc. intros H.
  repeat (apply elem_of_cons in H as [H|H]; [discriminate H |]).
  apply elem_of_nil in H. exact H.
Qed.

Lemma three_rows_magnitude_and_duration_witness :
  accel_magnitude three_rows (boot (Some (Table three_rows))) =
    (boot (Some (Table three_rows)), inr (Float64Series [1; 1; 1]%float)) /\
  ((laid_out overflowing (figure_of three_rows) /\
    exists rest,
      console (main Series.np_nansum overflowing (boot (Some (Table three_rows)))).1 =
        console (boot (Some (Table three_rows))) ++
        ["Data loaded: 3 samples"; "Duration: 0.2 seconds"] ++ rest) \/
   (exists m,
      layout_raises overflowing (figure_of three_rows) m /\
      console (main Series.np_nansum overflowing (boot (Some (Table three_rows)))).1 =
        console (boot (Some (Table three_rows))) ++
        ["Data loaded: 3 samples"; "ERROR: " +:+ m] ++ usage)).
Proof.
  apply (three_rows_magnitude_and_duration Series.np_nansum overflowing
           (boot (Some (Table three_rows))) three_rows
           (Int64Series [0; 1; 2])
           (Float64Series [0; 0; 0]%float) (Float64Series [0; 0; 0]%float)
           (Float64Series [1; 1; 1]%float)).
  - reflexivity.
  - apply frame_valid. repeat constructor.
  - apply wf_header. frame_wf.
  - reflexivity.
  - left. reflexivity.
  - reflexivity.
  - right. vm_compute. reflexivity.
  - reflexivity.
  - right. vm_compute. reflexivity.
  - reflexivity.
  - right. vm_compute. reflexivity.
Defined.

Lemma last_cell_mul_float s c :
  Series.len s <> 0%nat -> is_Some (Series.last_cell (Series.mul_float s c)).
Proof.
  intros H. unfold Series.last_cell. apply last_is_Some. intros E.
  apply (f_equal length) in E. simpl in E. rewrite !length_fmap in E.
  destruct s; simpl in *; rewrite ?length_fmap in E; contradiction.
Qed.

Lemma last_cell_empty s c :
  Series.len s = 0%nat -> Series.last_cell (Series.mul_float s c) = None.
Proof.
  destruct s as [[|]|[|]]; simpl; intros H; try discriminate; reflexivity.
Qed.

(** *** Runs that end in an [except] clause *)

Lemma figure_lines_drawing tm ax ay az gx gy gz roll pitch mag :
  figure_lines (drawing tm ax ay az gx gy gz roll pitch mag) =
    [line tm ax "r-" "AccelX"; line tm ay "g-" "AccelY"; line tm az "b-" "AccelZ";
     line tm gx "r-" "GyroX"; line tm gy "g-" "GyroY"; line tm gz "b-" "GyroZ";
     line tm roll "purple" "Roll"; line tm pitch "orange" "Pitch";
     line tm mag "black" "Magnitude";
     line (Float64Series [0; 1]%float) (Float64Series [1; 1]%float) "--" "1g reference"].
Proof. reflexivity. Qed.

Lemma moderate_series_empty s : Series.len s = 0%nat -> moderate_series s = true.
Proof. destruct s as [[|]|[|]]; simpl; intros H; try discriminate; reflexivity. Qed.

(** The figure of a table without rows holds no number but those of the
    reference line. *)
Lemma empty_figure_moderate data :
  has_header data -> df_valid data -> index_size data = 0%nat ->
  moderate_figure (figure_of data) = true.
Proof.
  intros Hh Hv Hn.
  assert (forall c, bool_decide (c ∈ expected_columns) = true ->
                    Series.len (column data c) = 0%nat) as Hc.
  { intros c H. rewrite <- Hn. apply (Hv c), has_header_lookup; assumption. }
  unfold moderate_figure, figure_of. rewrite figure_lines_drawing.
  cbn [forallb]. unfold moderate_line, line. cbn [line_x line_y].
  rewrite !moderate_series_empty
    by first [ apply Hc; reflexivity
             | rewrite len_mul_float; apply Hc; reflexivity
             | apply len_magnitude_of; apply Hc; reflexivity ].
  reflexivity.
Qed.

Section Failures.

Variable nansum : list float -> float.
Variable layout_error : Figure -> option string.

Lemma handler_key_error c w :
  handler (KeyError c) w = (say (missing_column_lines c) w, inr tt).
Proof.
  simpl. do 2 erewrite bind_ok by apply print_ok.
  rewrite print_ok, !say_say. reflexivity.
Qed.

Lemma handler_not_found w :
  handler FileNotFoundError w = (say not_found_lines w, inr tt).
Proof.
  simpl. do 4 erewrite bind_ok by apply print_ok.
  rewrite print_ok, !say_say. reflexivity.
Qed.

Lemma handler_index_error m w :
  handler (IndexError m) w = (say ["ERROR: " +:+ m] w, inr tt).
Proof. reflexivity. Qed.

(** Case analysis on the column [col]: present, or the run stops there. *)
Ltac probe col :=
  destruct (columns _ !! col) eqn:?; cbv beta iota;
  [| exists col; split; [apply in_expected_columns; reflexivity |];
     split; [assumption | reflexivity]].

(** The columns are looked up in the order Sample, AccelX, AccelY,
    AccelZ, GyroX, GyroY, GyroZ, Roll, Pitch; the first one that is
    absent raises [KeyError]. *)
Lemma body_missing_column w data :
  disk w !! filename = Some (Table data) ->
  (exists c, c ∈ expected_columns /\ columns data !! c = None) ->
  exists c,
    c ∈ expected_columns /\ columns data !! c = None /\
    body nansum layout_error w =
      (say ["Data loaded: " +:+ B64.decimal (Z.of_nat (index_size data)) +:+ " samples"] w,
       inl (KeyError c)).
Proof.
  intros Hd (c & Hc & Hnone). unfold body.
  step read_csv_ok. erewrite bind_ok by apply print_ok.
  unfold time, plot_acceleration, plot_gyroscope, plot_angles, plot_column,
    getitem, mbind, Py_bind, bind, mret, Py_ret, ret, raise.
  probe "Sample". probe "AccelX". probe "AccelY". probe "AccelZ".
  probe "GyroX". probe "GyroY". probe "GyroZ". probe "Roll". probe "Pitch".
  exfalso. unfold expected_columns, float_columns in Hc.
  repeat (apply elem_of_cons in Hc as [->|Hc]; [congruence |]).
  apply elem_of_nil in Hc. exact Hc.
Qed.

Lemma body_no_rows w data :
  disk w !! filename = Some (Table data) ->
  has_header data ->
  df_valid data ->
  index_size data = 0%nat ->
  body nansum layout_error w =
    (say ["Data loaded: 0 samples"] w,
     inl (IndexError "single positional indexer is out-of-bounds")).
Proof.
  intros Hd Hh Hv Hn.
  rewrite (body_no_time nansum layout_error w data Hd Hh).
  - unfold loaded_line. rewrite Hn. reflexivity.
  - left. apply empty_figure_moderate; assumption.
  - apply last_cell_empty. rewrite <- Hn.
    apply (Hv "Sample"), has_header_lookup; [exact Hh | reflexivity].
Qed.

Lemma main_no_rows w data :
  disk w !! filename = Some (Table data) ->
  has_header data ->
  df_valid data ->
  index_size data = 0%nat ->
  main nansum layout_error w =
    (say (["Data loaded: 0 samples";
           "ERROR: single positional indexer is out-of-bounds"] ++ usage) w,
     inr tt).
Proof.
  intros Hd Hh Hv Hn.
  rewrite (main_of_body_raise nansum layout_error _ _ _ _
             (body_no_rows w data Hd Hh Hv Hn) (handler_index_error _ _)).
  rewrite !say_say. reflexivity.
Qed.

End Failures.

(** C6.  When the file loads but lacks an expected column, the run ends
    normally, and after the line that counts the samples it prints the
    missing-column message, which names an expected column that the
    table lacks (the first one in the order the script reads them),
    followed by the expected header; nothing is written to disk. *)
Theorem missing_column_reported
    (nansum : list float -> float) (layout_error : Figure -> option string)
    (w : World) (data : DataFrame) :
  disk w !! filename = Some (Table data) ->
  (exists c, c ∈ expected_columns /\ columns data !! c = None) ->
  exists c,
    c ∈ expected_columns /\ columns data !! c = None /\
    main nansum layout_error w =
      (say (["Data loaded: " +:+ B64.decimal (Z.of_nat (index_size data)) +:+ " samples";
             "ERROR: Column not found: '" +:+ c +:+ "'";
             "Check if CSV has correct header:";
             "Sample,AccelX,AccelY,AccelZ,GyroX,GyroY,GyroZ,Roll,Pitch"] ++ usage) w,
       inr tt).
Proof.
  intros Hd Hmiss.
  destruct (body_missing_column nansum layout_error w data Hd Hmiss) as (c & Hc & Hnone & Hb).
  exists c. do 2 (split; [assumption |]).
  rewrite (main_of_body_raise nansum layout_error _ _ _ _ Hb (handler_key_error c _)).
  rewrite !say_say. reflexivity.
Qed.

Lemma missing_column_reported_witness :
  exists c,
    c ∈ expected_columns /\ columns no_gyro_y !! c = None /\
    main Series.np_nansum overflowing (boot (Some (Table no_gyro_y))) =
      (say (["Data loaded: " +:+ B64.decimal (Z.of_nat (index_size no_gyro_y)) +:+ " samples";
             "ERROR: Column not found: '" +:+ c +:+ "'";
             "Check if CSV has correct header:";
             "Sample,AccelX,AccelY,AccelZ,GyroX,GyroY,GyroZ,Roll,Pitch"] ++ usage)
         (boot (Some (Table no_gyro_y))),
       inr tt).
Proof.
  apply (missing_column_reported Series.np_nansum overflowing
           (boot (Some (Table no_gyro_y))) no_gyro_y).
  - reflexivity.
  - exists "GyroY". split; [apply in_expected_columns |]; reflexivity.
Defined.

(** C7.  When [mpu_data.csv] does not exist, the run ends normally: it
    prints the file-not-found message and the three things to make sure
    of, then the usage instructions, and writes nothing to disk. *)
Theorem missing_file_reported
    (nansum : list float -> float) (layout_error : Figure -> option string)
    (w : World) :
  disk w !! filename = None ->
  main nansum layout_error w =
    (say (["ERROR: File 'mpu_data.csv' not found!";
           nl +:+ "Make sure to:";
           "1. Transfer CSV file from microcontroller using 't' command";
           "2. Copy data between markers and save as 'mpu_data.csv'";
           "3. Put file in same folder as this script"] ++ usage) w,
     inr tt).
Proof.
  intros Hd.
  assert (body nansum layout_error w = (w, inl FileNotFoundError)) as Hb.
  { unfold body. apply bind_raise. unfold read_csv. rewrite Hd. reflexivity. }
  rewrite (main_of_body_raise nansum layout_error _ _ _ _ Hb (handler_not_found _)).
  rewrite !say_say. reflexivity.
Qed.

Lemma missing_file_reported_witness :
  main Series.np_nansum overflowing (boot None) =
    (say (["ERROR: File 'mpu_data.csv' not found!";
           nl +:+ "Make sure to:";
           "1. Transfer CSV file from microcontroller using 't' command";
           "2. Copy data between markers and save as 'mpu_data.csv'";
           "3. Put file in same folder as this script"] ++ usage) (boot None),
     inr tt).
Proof. apply (missing_file_reported Series.np_nansum overflowing (boot None)). reflexivity. Defined.

(** C9.  A table with the expected header and no row loads; the lookup
    of the last time raises, so the run prints the number of samples,
    the generic error line and the usage instructions, and nothing else:
    no statistics, no saved image, no exception left uncaught. *)
Theorem no_rows_generic_error
    (nansum : list float -> float) (layout_error : Figure -> option string)
    (w : World) (data : DataFrame) :
  disk w !! filename = Some (Table data) ->
  has_header data ->
  df_valid data ->
  index_size data = 0%nat ->
  body nansum layout_error w =
    (say ["Data loaded: 0 samples"] w,
     inl (IndexError "single positional indexer is out-of-bounds")) /\
  main nansum layout_error w =
    (say (["Data loaded: 0 samples";
           "ERROR: single positional indexer is out-of-bounds"] ++ usage) w,
     inr tt).
Proof.
  intros Hd Hh Hv Hn. split.
  - apply (body_no_rows nansum layout_error w data); assumption.
  - apply (main_no_rows nansum layout_error w data); assumption.
Qed.

Lemma no_rows_generic_error_witness :
  body Series.np_nansum overflowing (boot (Some (Table no_rows))) =
    (say ["Data loaded: 0 samples"] (boot (Some (Table no_rows))),
     inl (IndexError "single positional indexer is out-of-bounds")) /\
  main Series.np_nansum overflowing (boot (Some (Table no_rows))) =
    (say (["Data loaded: 0 samples";
           "ERROR: single positional indexer is out-of-bounds"] ++ usage)
       (boot (Some (Table no_rows))),
     inr tt).
Proof.
  apply (no_rows_generic_error Series.np_nansum overflowing (boot (Some (Table no_rows))) no_rows).
  - reflexivity.
  - apply wf_header. frame_wf.
  - apply frame_valid. repeat constructor.
  - reflexivity.
Defined.

(** C10.  Every run ends normally, and the last lines on the console are
    the usage instructions: the heading and the four numbered steps. *)
Theorem usage_printed_last
    (nansum : list float -> float) (layout_error : Figure -> option string)
    (w : World) :
  (main nansum layout_error w).2 = inr tt /\
  exists before,
    console (main nansum layout_error w).1 =
      before ++
      [nl +:+ "USAGE INSTRUCTIONS:";
       "1. On microcontroller: press 't' -> type 'mpu_data.csv'";
       "2. Copy data between markers";
       "3. Paste in text file and save as 'mpu_data.csv'";
       "4. Run: python PlotaDados.py"].
Proof.
  destruct (body nansum layout_error w) as [w' [e|[]]] eqn:Hb.
  - destruct (handler_ok e w') as [lines Hh].
    rewrite (main_of_body_raise nansum layout_error _ _ _ _ Hb Hh).
    split; [reflexivity |]. eexists. reflexivity.
  - rewrite (main_of_body_ok nansum layout_error _ _ Hb).
    split; [reflexivity |]. eexists. reflexivity.
Qed.

(** *** The statistics of a column *)






(** *** numpy's sum is a sum *)






Lemma pairwise_sum_eq fuel a :
  Series.pairwise_sum fuel a =
    let n := length a in
    if (n <? 8)%nat then fold_left PrimFloat.add a (- 0)%float
    else if (n <=? 128)%nat then
      let '(r, rest) := Series.add_blocks (n / 8 - 1) (take 8 a) (drop 8 a) in
      fold_left PrimFloat.add rest (Series.sum8 r)
    else
      match fuel with
      | O => fold_left PrimFloat.add a (- 0)%float
      | S fuel' =>
          let n2 := (n / 2 - (n / 2) mod 8)%nat in
          (Series.pairwise_sum fuel' (take n2 a) + Series.pairwise_sum fuel' (drop n2 a))%float
      end.
Proof. destruct fuel; reflexivity. Qed.


(** The recursion never runs out of fuel when started with the length
    of the array: any two amounts of fuel at least as large give the same
    sum. *)
Lemma pairwise_sum_fuel fuel : forall a fuel',
  (length a <= fuel)%nat -> (length a <= fuel')%nat ->
  Series.pairwise_sum fuel a = Series.pairwise_sum fuel' a.
Proof.
  induction fuel as [|fuel IH]; intros a fuel' Ha Ha';
    rewrite (pairwise_sum_eq _ a), (pairwise_sum_eq fuel' a); cbv zeta;
    destruct (Nat.ltb_spec (length a) 8); try reflexivity;
    destruct (Nat.leb_spec (length a) 128); try reflexivity; [lia |].
  destruct fuel' as [|fuel']; [lia |].
  pose proof (Nat.div_mod_eq (length a) 2).
  pose proof (Nat.mod_upper_bound (length a) 2).
  pose proof (Nat.mod_upper_bound (length a / 2) 8).
  f_equal; apply IH; rewrite ?length_take, ?length_drop; lia.
Qed.










(** *** What a failing run leaves on disk *)

Create HintDb disk.

Lemma keeps_disk_ret {A} (a : A) : keeps_disk (mret a).
Proof. intros w w' r [= <- _]. reflexivity. Qed.

Lemma keeps_disk_raise {A} e : keeps_disk (@raise A e).
Proof. intros w w' r [= <- _]. reflexivity. Qed.

Lemma keeps_disk_print s : keeps_disk (print s).
Proof. intros w w' r [= <- _]. reflexivity. Qed.

Lemma keeps_disk_read_csv path : keeps_disk (read_csv path).
Proof.
  intros w w' r. unfold read_csv.
  destruct (disk w !! path) as [[]|]; intros [= <- _]; reflexivity.
Qed.

Lemma keeps_disk_getitem data key : keeps_disk (getitem data key).
Proof. unfold getitem. destruct (columns data !! key); intros w w' r [= <- _]; reflexivity. Qed.

Lemma keeps_disk_iloc_last s : keeps_disk (iloc_last s).
Proof. unfold iloc_last. destruct (Series.last_cell s); intros w w' r [= <- _]; reflexivity. Qed.

Lemma keeps_disk_bind {A B} (c : Py A) (k : A -> Py B) :
  keeps_disk c -> (forall a, keeps_disk (k a)) -> keeps_disk (c ≫= k).
Proof.
  intros Hc Hk w w' r H.
  apply bind_inv in H as [(e & H & _)|(w1 & a & H1 & H2)].
  - apply (Hc _ _ _ H).
  - rewrite (Hk _ _ _ _ H2). apply (Hc _ _ _ H1).
Qed.

#[local] Hint Resolve keeps_disk_ret keeps_disk_raise keeps_disk_print
  keeps_disk_read_csv keeps_disk_getitem keeps_disk_iloc_last keeps_disk_bind : disk.

Lemma keeps_disk_time data : keeps_disk (time data).
Proof. unfold time. auto with disk. Qed.

Lemma keeps_disk_plot_column data time pos col fmt fig :
  keeps_disk (plot_column data time pos col fmt fig).
Proof. unfold plot_column. auto with disk. Qed.

#[local] Hint Resolve keeps_disk_time keeps_disk_plot_column : disk.

Lemma keeps_disk_plot_acceleration data time fig :
  keeps_disk (plot_acceleration data time fig).
Proof. unfold plot_acceleration. auto 10 with disk. Qed.

Lemma keeps_disk_plot_gyroscope data time fig :
  keeps_disk (plot_gyroscope data time fig).
Proof. unfold plot_gyroscope. auto 10 with disk. Qed.

Lemma keeps_disk_plot_angles data time fig :
  keeps_disk (plot_angles data time fig).
Proof. unfold plot_angles. auto 10 with disk. Qed.

Lemma keeps_disk_accel_magnitude data : keeps_disk (accel_magnitude data).
Proof. unfold accel_magnitude. auto 10 with disk. Qed.

Lemma keeps_disk_print_stats nansum data label col p :
  keeps_disk (print_stats nansum data label col p).
Proof. unfold print_stats. auto 10 with disk. Qed.

#[local] Hint Resolve keeps_disk_plot_acceleration keeps_disk_plot_gyroscope
  keeps_disk_plot_angles keeps_disk_accel_magnitude keeps_disk_print_stats : disk.

Lemma keeps_disk_report nansum data time : keeps_disk (report nansum data time).
Proof. unfold report. auto 40 with disk. Qed.

Lemma keeps_disk_tight_layout layout_error fig :
  keeps_disk (tight_layout layout_error fig).
Proof.
  unfold tight_layout. destruct (moderate_figure fig); [auto with disk |].
  destruct (layout_error fig); auto with disk.
Qed.

#[local] Hint Resolve keeps_disk_report keeps_disk_tight_layout : disk.

Lemma keeps_disk_handler e : keeps_disk (handler e).
Proof. destruct e; simpl; auto 10 with disk. Qed.

Lemma raises_before_writing_bind {A B} (c : Py A) (k : A -> Py B) :
  keeps_disk c -> (forall a, raises_before_writing (k a)) ->
  raises_before_writing (c ≫= k).
Proof.
  intros Hc Hk w w' e H.
  apply bind_inv in H as [(e' & H & _)|(w1 & a & H1 & H2)].
  - apply (Hc _ _ _ H).
  - rewrite (Hk _ _ _ _ H2). apply (Hc _ _ _ H1).
Qed.

(** Showing and saving the figure, then announcing it, cannot raise. *)
Lemma persist_returns fig :
  raises_before_writing
    (show fig;; savefig output fig;; print (nl +:+ "Plot saved as: mpu6050_analysis.png")).
Proof. intros w w' e H. discriminate H. Qed.

Lemma body_raises_before_writing nansum layout_error :
  raises_before_writing (body nansum layout_error).
Proof.
  unfold body.
  do 9 (cbv zeta; apply raises_before_writing_bind; [solve [auto with disk] | intros ?]).
  apply persist_returns.
Qed.

(** C8.  Whenever the body of the [try] raises, whatever the exception,
    the disk after the run is the disk before it: no image is written. *)
Theorem error_leaves_disk_unchanged
    (nansum : list float -> float) (layout_error : Figure -> option string)
    (w w' : World) (e : exn) :
  body nansum layout_error w = (w', inl e) ->
  disk (main nansum layout_error w).1 = disk w.
Proof.
  intros Hb.
  destruct (handler_ok e w') as [lines Hh].
  rewrite (main_of_body_raise nansum layout_error _ _ _ _ Hb Hh). simpl.
  apply (body_raises_before_writing nansum layout_error _ _ _ Hb).
Qed.

Lemma error_leaves_disk_unchanged_witness :
  disk (main Series.np_nansum overflowing (boot (Some (Table no_gyro_y)))).1 =
    disk (boot (Some (Table no_gyro_y))).
Proof.
  apply (error_leaves_disk_unchanged Series.np_nansum overflowing
           (boot (Some (Table no_gyro_y)))
           (say ["Data loaded: 1 samples"] (boot (Some (Table no_gyro_y))))
           (KeyError "GyroY")).
  vm_compute. reflexivity.
Defined.

(** ** Further properties of the script *)

(** *** Every outcome of a run *)

Section Outcomes.

Variable nansum : list float -> float.
Variable layout_error : Figure -> option string.

Lemma header_or_missing data :
  has_header data \/ exists c, c ∈ expected_columns /\ columns data !! c = None.
Proof.
  destruct (decide (Forall (fun c => is_Some (columns data !! c)) expected_columns))
    as [H|H].
  - left. intros c Hc. rewrite Forall_forall in H. apply H, Hc.
  - right. apply not_Forall_Exists in H; [| intros c; apply _].
    apply Exists_exists in H as (c & Hc & Hn).
    exists c. split; [exact Hc |].
    destruct (columns data !! c) as [s|] eqn:E; [| reflexivity].
    exfalso. apply Hn. simpl. rewrite E. eexists. reflexivity.
Qed.

(** The run of the script, case by case on what [mpu_data.csv] holds: no
    such file, a file that is no table, a table that lacks a column, a
    figure on which the layout raises, a table without a last row, and
    the run in which nothing raises. *)
Lemma main_outcomes w :
  match disk w !! filename with
  | None =>
      main nansum layout_error w =
        (after {| printed := not_found_lines ++ usage; saved := None |} w, inr tt)
  | Some (Unreadable m) =>
      main nansum layout_error w =
        (after {| printed := ["ERROR: " +:+ m] ++ usage; saved := None |} w, inr tt)
  | Some (Picture _) =>
      main nansum layout_error w =
        (after {| printed := ["ERROR: " +:+ utf8_error] ++ usage; saved := None |} w, inr tt)
  | Some (Table data) =>
      (exists c,
         c ∈ expected_columns /\ columns data !! c = None /\
         main nansum layout_error w =
           (after {| printed := [loaded_line data] ++ missing_column_lines c ++ usage;
                     saved := None |} w, inr tt)) \/
      (exists m,
         has_header data /\ layout_raises layout_error (figure_of data) m /\
         main nansum layout_error w =
           (after {| printed := [loaded_line data; "ERROR: " +:+ m] ++ usage;
                     saved := None |} w, inr tt)) \/
      (has_header data /\ laid_out layout_error (figure_of data) /\
       Series.last_cell (Series.mul_float (column data "Sample") B64.tenth) = None /\
       main nansum layout_error w =
         (after {| printed :=
                     [loaded_line data;
                      "ERROR: single positional indexer is out-of-bounds"] ++ usage;
                   saved := None |} w, inr tt)) \/
      (exists t,
         has_header data /\ laid_out layout_error (figure_of data) /\
         Series.last_cell (Series.mul_float (column data "Sample") B64.tenth) = Some t /\
         main nansum layout_error w =
           (after {| printed := run_lines nansum data t ++ usage;
                     saved := Some (figure_of data) |} w, inr tt))
  end.
Proof.
  destruct (disk w !! filename) as [[data|m|fig]|] eqn:Hd.
  - destruct (header_or_missing data) as [Hh|Hmiss].
    + right.
      destruct (laid_out_or_raises layout_error (figure_of data)) as [Hl|[m Hl]].
      * right.
        destruct (Series.last_cell (Series.mul_float (column data "Sample") B64.tenth))
          as [t|] eqn:Ht.
        -- right. exists t. do 3 (split; [assumption || reflexivity |]).
           apply main_ok; assumption.
        -- left. do 3 (split; [assumption || reflexivity |]).
           rewrite (main_of_body_raise nansum layout_error _ _ _ _
                      (body_no_time nansum layout_error w data Hd Hh Hl Ht)
                      (handler_index_error _ _)).
           rewrite !say_say. reflexivity.
      * left. exists m. do 2 (split; [assumption |]).
        rewrite (main_layout_raise nansum layout_error w data m Hd Hh Hl).
        reflexivity.
    + left.
      destruct (body_missing_column nansum layout_error w data Hd Hmiss)
        as (c & Hc & Hnone & Hb).
      exists c. do 2 (split; [assumption |]).
      rewrite (main_of_body_raise nansum layout_error _ _ _ _ Hb (handler_key_error c _)).
      rewrite !say_say. reflexivity.
  - assert (body nansum layout_error w = (w, inl (OtherException m))) as Hb.
    { unfold body. apply bind_raise. unfold read_csv. rewrite Hd. reflexivity. }
    assert (handler (OtherException m) w = (say ["ERROR: " +:+ m] w, inr tt)) as Hh
      by reflexivity.
    rewrite (main_of_body_raise nansum layout_error _ _ _ _ Hb Hh), !say_say. reflexivity.
  - assert (body nansum layout_error w = (w, inl (OtherException utf8_error))) as Hb.
    { unfold body. apply bind_raise. unfold read_csv. rewrite Hd. reflexivity. }
    assert (handler (OtherException utf8_error) w =
              (say ["ERROR: " +:+ utf8_error] w, inr tt)) as Hh by reflexivity.
    rewrite (main_of_body_raise nansum layout_error _ _ _ _ Hb Hh), !say_say. reflexivity.
  - assert (body nansum layout_error w = (w, inl FileNotFoundError)) as Hb.
    { unfold body. apply bind_raise. unfold read_csv. rewrite Hd. reflexivity. }
    rewrite (main_of_body_raise nansum layout_error _ _ _ _ Hb (handler_not_found _)),
      !say_say.
    reflexivity.
Qed.

End Outcomes.

(** *** The script acts the same way in every world *)

Lemma after_nothing w : after {| printed := []; saved := None |} w = w.
Proof. destruct w. unfold after. simpl. rewrite app_nil_r. reflexivity. Qed.

Lemma after_after e1 e2 w : after e2 (after e1 w) = after (and_then e1 e2) w.
Proof.
  unfold after, and_then. simpl. rewrite app_assoc.
  destruct (saved e1), (saved e2); simpl; try reflexivity.
  rewrite insert_insert_eq. reflexivity.
Qed.

Lemma after_say eff lines w :
  say lines (after eff w) = after (and_then eff {| printed := lines; saved := None |}) w.
Proof. rewrite <- after_after. reflexivity. Qed.

Create HintDb uniform.

Lemma uniform_ret {A} (a : A) : uniform (mret a).
Proof. exists {| printed := []; saved := None |}, (inr a). intros w. rewrite after_nothing. reflexivity. Qed.

Lemma uniform_raise {A} e : uniform (@raise A e).
Proof. exists {| printed := []; saved := None |}, (inl e). intros w. rewrite after_nothing. reflexivity. Qed.

Lemma uniform_print s : uniform (print s).
Proof. exists {| printed := [s]; saved := None |}, (inr tt). reflexivity. Qed.

Lemma uniform_getitem data key : uniform (getitem data key).
Proof. unfold getitem. destruct (columns data !! key); [apply uniform_ret | apply uniform_raise]. Qed.

Lemma uniform_iloc_last s : uniform (iloc_last s).
Proof. unfold iloc_last. destruct (Series.last_cell s); [apply uniform_ret | apply uniform_raise]. Qed.

Lemma uniform_show fig : uniform (show fig).
Proof. apply (uniform_ret tt). Qed.

Lemma uniform_savefig fig : uniform (savefig output fig).
Proof.
  exists {| printed := []; saved := Some fig |}, (inr tt). intros w.
  unfold savefig, after. simpl. rewrite app_nil_r. reflexivity.
Qed.

Lemma uniform_bind {A B} (c : Py A) (k : A -> Py B) :
  uniform c -> (forall a, uniform (k a)) -> uniform (c ≫= k).
Proof.
  intros (e1 & [e|a] & Hc) Hk.
  - exists e1, (inl e). intros w. apply bind_raise, Hc.
  - destruct (Hk a) as (e2 & r & Ha).
    exists (and_then e1 e2), r. intros w.
    rewrite (bind_ok _ _ _ _ _ (Hc w)), Ha. rewrite after_after. reflexivity.
Qed.

#[local] Hint Resolve uniform_ret uniform_raise uniform_print uniform_getitem
  uniform_iloc_last uniform_show uniform_savefig uniform_bind : uniform.

Lemma uniform_time data : uniform (time data).
Proof. unfold time. auto with uniform. Qed.

Lemma uniform_plot_column data tm pos col fmt fig :
  uniform (plot_column data tm pos col fmt fig).
Proof. unfold plot_column. auto with uniform. Qed.

#[local] Hint Resolve uniform_time uniform_plot_column : uniform.

Lemma uniform_plot_acceleration data tm fig : uniform (plot_acceleration data tm fig).
Proof. unfold plot_acceleration. auto 10 with uniform. Qed.

Lemma uniform_plot_gyroscope data tm fig : uniform (plot_gyroscope data tm fig).
Proof. unfold plot_gyroscope. auto 10 with uniform. Qed.

Lemma uniform_plot_angles data tm fig : uniform (plot_angles data tm fig).
Proof. unfold plot_angles. auto 10 with uniform. Qed.

Lemma uniform_accel_magnitude data : uniform (accel_magnitude data).
Proof. unfold accel_magnitude. auto 10 with uniform. Qed.

Lemma uniform_print_stats nansum data label col p :
  uniform (print_stats nansum data label col p).
Proof. unfold print_stats. auto 10 with uniform. Qed.

#[local] Hint Resolve uniform_plot_acceleration uniform_plot_gyroscope
  uniform_plot_angles uniform_accel_magnitude uniform_print_stats : uniform.

Lemma uniform_report nansum data tm : uniform (report nansum data tm).
Proof. unfold report. auto 40 with uniform. Qed.

Lemma uniform_tight_layout layout_error fig : uniform (tight_layout layout_error fig).
Proof.
  unfold tight_layout. destruct (moderate_figure fig); [apply uniform_ret |].
  destruct (layout_error fig); [apply uniform_raise | apply uniform_ret].
Qed.

#[local] Hint Resolve uniform_report uniform_tight_layout : uniform.

(** The part of the [try] body that follows the loading of the table. *)
Lemma body_uniform nansum layout_error (content : option file) :
  exists eff r, forall w,
    disk w !! filename = content -> body nansum layout_error w = (after eff w, r).
Proof.
  destruct content as [[data|m|fig]|].
  - unfold body.
    match goal with
    | |- context [read_csv filename ≫= ?k] => assert (uniform (k data)) as (eff & r & H)
    end.
    { cbv beta.
      do 10 (cbv zeta; apply uniform_bind; [solve [auto with uniform] | intros ?]).
      apply uniform_print. }
    exists eff, r. intros w Hw.
    rewrite (bind_ok _ _ _ _ _ (read_csv_ok _ _ _ Hw)). apply H.
  - exists {| printed := []; saved := None |}, (inl (OtherException m)).
    intros w Hw. rewrite after_nothing. unfold body. apply bind_raise.
    unfold read_csv. rewrite Hw. reflexivity.
  - exists {| printed := []; saved := None |}, (inl (OtherException utf8_error)).
    intros w Hw. rewrite after_nothing. unfold body. apply bind_raise.
    unfold read_csv. rewrite Hw. reflexivity.
  - exists {| printed := []; saved := None |}, (inl FileNotFoundError).
    intros w Hw. rewrite after_nothing. unfold body. apply bind_raise.
    unfold read_csv. rewrite Hw. reflexivity.
Qed.

Lemma handler_lines e : exists lines, forall w, handler e w = (say lines w, inr tt).
Proof.
  destruct e; simpl; eexists; intros w;
    repeat erewrite bind_ok by apply print_ok;
    rewrite print_ok, ?say_say; reflexivity.
Qed.

(** What the script does after the [try] body follows from what the body did. *)
Lemma main_after_body nansum layout_error eff r :
  exists eff', forall w,
    body nansum layout_error w = (after eff w, r) ->
    main nansum layout_error w = (after eff' w, inr tt).
Proof.
  destruct r as [e|[]].
  - destruct (handler_lines e) as [lines Hh].
    exists (and_then (and_then eff {| printed := lines; saved := None |})
              {| printed := usage; saved := None |}).
    intros w Hb.
    rewrite (main_of_body_raise nansum layout_error _ _ _ _ Hb (Hh _)).
    rewrite !after_say. reflexivity.
  - exists (and_then eff {| printed := usage; saved := None |}).
    intros w Hb.
    rewrite (main_of_body_ok nansum layout_error _ _ Hb).
    rewrite after_say. reflexivity.
Qed.

(** What the whole script does is a function of what [mpu_data.csv] holds. *)
Lemma main_uniform nansum layout_error (content : option file) :
  exists eff, forall w,
    disk w !! filename = content -> main nansum layout_error w = (after eff w, inr tt).
Proof.
  destruct (body_uniform nansum layout_error content) as (eff & r & Hb).
  destruct (main_after_body nansum layout_error eff r) as [eff' Hm].
  exists eff'. intros w Hw. apply Hm, Hb, Hw.
Qed.

(** *** The picture *)



(** X2.  In the figure saved from a table whose columns all have one
    cell per row, every line of every chart has as many y values as x
    values.  The reference line of the magnitude chart runs from 0 to 1
    at height 1; every other line has the time series as its x data and
    one y value per row: no call to [plot] is handed series of different
    lengths. *)
Theorem plotted_lines_fit
    (nansum : list float -> float) (layout_error : Figure -> option string)
    (w : World) (data : DataFrame) (sample : Series) :
  disk w !! filename = Some (Table data) ->
  has_header data ->
  df_valid data ->
  columns data !! "Sample" = Some sample ->
  index_size data <> 0%nat ->
  laid_out layout_error (figure_of data) ->
  exists fig,
    disk (main nansum layout_error w).1 !! output = Some (Picture fig) /\
    forall pos a l,
      fig_axes fig !! pos = Some a -> l ∈ ax_lines a ->
      Series.len (line_x l) = Series.len (line_y l) /\
      ((line_label l = "1g reference" /\
        line_x l = Float64Series [0; 1]%float /\
        line_y l = Float64Series [1; 1]%float) \/
       (line_x l = Series.mul_float sample B64.tenth /\
        Series.len (line_y l) = index_size data)).
Proof.
  intros Hd Hh Hv Hs Hn Hl.
  pose proof (Hv _ _ Hs) as Hlen. simpl in Hlen.
  destruct (last_cell_mul_float sample B64.tenth) as [t Ht]; [rewrite Hlen; exact Hn |].
  rewrite <- (column_lookup _ _ _ Hs) in Ht.
  rewrite (main_ok nansum layout_error w data t Hd Hh Hl Ht).
  column_at Hh "AccelX" ax Hax. column_at Hh "AccelY" ay Hay.
  column_at Hh "AccelZ" az Haz. column_at Hh "GyroX" gx Hgx.
  column_at Hh "GyroY" gy Hgy. column_at Hh "GyroZ" gz Hgz.
  column_at Hh "Roll" roll Hr. column_at Hh "Pitch" pitch Hp.
  rewrite (figure_of_columns data sample ax ay az gx gy gz roll pitch) by assumption.
  eexists. split; [simpl; apply lookup_insert_eq |].
  pose proof (Hv _ _ Hax) as Lax. pose proof (Hv _ _ Hay) as Lay.
  pose proof (Hv _ _ Haz) as Laz. pose proof (Hv _ _ Hgx) as Lgx.
  pose proof (Hv _ _ Hgy) as Lgy. pose proof (Hv _ _ Hgz) as Lgz.
  pose proof (Hv _ _ Hr) as Lr. pose proof (Hv _ _ Hp) as Lp.
  pose proof (len_magnitude_of ax ay az _ Lax Lay Laz) as Lmag.
  pose proof (len_mul_float sample B64.tenth) as Ltm.
  cbv beta in *.
  intros pos a l Ha Hin. unfold drawing in Ha. cbv beta iota delta [fig_axes] in Ha.
  apply elem_of_list_to_map_2 in Ha.
  repeat (apply elem_of_cons in Ha as [Ha|Ha];
          [injection Ha as -> ->; cbn [chart ax_lines] in Hin;
           repeat (apply elem_of_cons in Hin as [->|Hin];
                   [cbn [line line_x line_y line_label];
                    first [ split; [reflexivity | left; repeat split; reflexivity]
                          | split; [congruence | right; split; [reflexivity | assumption]] ]
                   |]);
           apply elem_of_nil in Hin; contradiction |]).
  apply elem_of_nil in Ha. contradiction.
Qed.

Lemma plotted_lines_fit_witness :
  exists fig,
    disk (main Series.np_nansum overflowing (boot (Some (Table three_rows)))).1 !! output =
      Some (Picture fig) /\
    forall pos a l,
      fig_axes fig !! pos = Some a -> l ∈ ax_lines a ->
      Series.len (line_x l) = Series.len (line_y l) /\
      ((line_label l = "1g reference" /\
        line_x l = Float64Series [0; 1]%float /\
        line_y l = Float64Series [1; 1]%float) \/
       (line_x l = Series.mul_float (Int64Series [0; 1; 2]) B64.tenth /\
        Series.len (line_y l) = index_size three_rows)).
Proof.
  apply (plotted_lines_fit Series.np_nansum overflowing (boot (Some (Table three_rows)))
           three_rows (Int64Series [0; 1; 2])).
  - reflexivity.
  - apply wf_header. frame_wf.
  - apply frame_valid. repeat constructor.
  - reflexivity.
  - discriminate.
  - left. vm_compute. reflexivity.
Defined.

(** *** Success or an error message *)

(** X3.  Every run either saves the figure and says so, the line
    announcing the saved plot being the last before the usage
    instructions, or prints a line that starts with "ERROR: " and leaves
    the disk as it was. *)
Theorem run_saves_or_reports
    (nansum : list float -> float) (layout_error : Figure -> option string)
    (w : World) :
  (exists fig lines,
     main nansum layout_error w =
       ({| console := console w ++ lines ++
             [nl +:+ "Plot saved as: mpu6050_analysis.png"] ++ usage;
           disk := <[output := Picture fig]> (disk w) |}, inr tt)) \/
  (exists before message more,
     main nansum layout_error w =
       (say (before ++ ["ERROR: " +:+ message] ++ more ++ usage) w, inr tt)).
Proof.
  pose proof (main_outcomes nansum layout_error w) as H.
  destruct (disk w !! filename) as [[data|m|fig]|].
  - destruct H as [(c & _ & _ & H)|[(m & _ & _ & H)|[(_ & _ & _ & H)|(t & _ & _ & _ & H)]]].
    + right. exists [loaded_line data], ("Column not found: '" +:+ c +:+ "'"),
        ["Check if CSV has correct header:";
         "Sample,AccelX,AccelY,AccelZ,GyroX,GyroY,GyroZ,Roll,Pitch"].
      rewrite H. reflexivity.
    + right. exists [loaded_line data], m, (@nil string).
      rewrite H. reflexivity.
    + right. exists [loaded_line data], "single positional indexer is out-of-bounds", (@nil string).
      rewrite H. reflexivity.
    + left. rewrite H.
      eexists _, ([loaded_line data] ++
                report_lines nansum (index_size data) t
                  (column data "AccelX") (column data "AccelY") (column data "AccelZ")
                  (column data "GyroX") (column data "GyroY") (column data "GyroZ")
                  (column data "Roll") (column data "Pitch")).
      unfold after, run_lines, success_lines. simpl printed. simpl saved.
      rewrite <- !app_assoc. reflexivity.
  - right. exists (@nil string), m, (@nil string). rewrite H. reflexivity.
  - right. exists (@nil string), utf8_error, (@nil string). rewrite H. reflexivity.
  - right. exists (@nil string), ("File 'mpu_data.csv' not found!"),
      [nl +:+ "Make sure to:";
       "1. Transfer CSV file from microcontroller using 't' command";
       "2. Copy data between markers and save as 'mpu_data.csv'";
       "3. Put file in same folder as this script"].
    rewrite H. reflexivity.
Qed.

(** X4.  Whenever the file loads, whatever happens next, the first line
    the run prints is the number of rows of the table. *)
Theorem row_count_printed_first
    (nansum : list float -> float) (layout_error : Figure -> option string)
    (w : World) (data : DataFrame) :
  disk w !! filename = Some (Table data) ->
  exists rest,
    console (main nansum layout_error w).1 =
      console w ++
      ("Data loaded: " +:+ B64.decimal (Z.of_nat (index_size data)) +:+ " samples") :: rest.
Proof.
  intros Hd. pose proof (main_outcomes nansum layout_error w) as H. rewrite Hd in H.
  destruct H as [(c & _ & _ & H)|[(m & _ & _ & H)|[(_ & _ & _ & H)|(t & _ & _ & _ & H)]]];
    rewrite H; eexists; reflexivity.
Qed.

Lemma row_count_printed_first_witness :
  exists rest,
    console (main Series.np_nansum overflowing (boot (Some (Table no_gyro_y)))).1 =
      console (boot (Some (Table no_gyro_y))) ++
      ("Data loaded: " +:+ B64.decimal (Z.of_nat (index_size no_gyro_y)) +:+ " samples") :: rest.
Proof.
  apply (row_count_printed_first Series.np_nansum overflowing
           (boot (Some (Table no_gyro_y))) no_gyro_y).
  reflexivity.
Defined.

(** X5.  When [mpu_data.csv] exists and [pd.read_csv] raises on it, the
    run prints "ERROR: " followed by the message of the exception, then
    the usage instructions, and nothing else: no row count, no
    statistics, and nothing is written. *)
Theorem unreadable_file_reported
    (nansum : list float -> float) (layout_error : Figure -> option string)
    (w : World) (message : string) :
  disk w !! filename = Some (Unreadable message) ->
  main nansum layout_error w = (say (["ERROR: " +:+ message] ++ usage) w, inr tt).
Proof.
  intros Hd. pose proof (main_outcomes nansum layout_error w) as H. rewrite Hd in H. exact H.
Qed.

Lemma unreadable_file_reported_witness :
  main Series.np_nansum overflowing (boot (Some (Unreadable "No columns to parse from file"))) =
    (say (["ERROR: " +:+ "No columns to parse from file"] ++ usage)
       (boot (Some (Unreadable "No columns to parse from file"))), inr tt).
Proof.
  apply (unreadable_file_reported Series.np_nansum overflowing
           (boot (Some (Unreadable "No columns to parse from file")))).
  reflexivity.
Defined.

(** *** Which missing column is named *)

Section FirstMissing.

Variable nansum : list float -> float.
Variable layout_error : Figure -> option string.

(** Case analysis on the column [col], read after the columns [pre]. *)
Ltac probe_after col pre post :=
  destruct (columns _ !! col) eqn:?; cbv beta iota;
  [| exists col, pre, post; split; [reflexivity |];
     split;
     [ let c := fresh "c" in
       let Hc := fresh "Hc" in
       intros c Hc;
       repeat (apply elem_of_cons in Hc as [->|Hc]; [eexists; eassumption |]);
       apply elem_of_nil in Hc; contradiction
     | split; [assumption | reflexivity] ] ].

Lemma body_first_missing w data :
  disk w !! filename = Some (Table data) ->
  (exists c, c ∈ expected_columns /\ columns data !! c = None) ->
  exists c pre post,
    expected_columns = pre ++ c :: post /\
    (forall c', c' ∈ pre -> is_Some (columns data !! c')) /\
    columns data !! c = None /\
    body nansum layout_error w = (say [loaded_line data] w, inl (KeyError c)).
Proof.
  intros Hd (c & Hc & Hnone). unfold body.
  step read_csv_ok. erewrite bind_ok by apply print_ok.
  unfold time, plot_acceleration, plot_gyroscope, plot_angles, plot_column,
    getitem, mbind, Py_bind, bind, mret, Py_ret, ret, raise.
  probe_after "Sample" (@nil string) float_columns.
  probe_after "AccelX" ["Sample"]
    ["AccelY"; "AccelZ"; "GyroX"; "GyroY"; "GyroZ"; "Roll"; "Pitch"].
  probe_after "AccelY" ["Sample"; "AccelX"]
    ["AccelZ"; "GyroX"; "GyroY"; "GyroZ"; "Roll"; "Pitch"].
  probe_after "AccelZ" ["Sample"; "AccelX"; "AccelY"]
    ["GyroX"; "GyroY"; "GyroZ"; "Roll"; "Pitch"].
  probe_after "GyroX" ["Sample"; "AccelX"; "AccelY"; "AccelZ"]
    ["GyroY"; "GyroZ"; "Roll"; "Pitch"].
  probe_after "GyroY" ["Sample"; "AccelX"; "AccelY"; "AccelZ"; "GyroX"]
    ["GyroZ"; "Roll"; "Pitch"].
  probe_after "GyroZ" ["Sample"; "AccelX"; "AccelY"; "AccelZ"; "GyroX"; "GyroY"]
    ["Roll"; "Pitch"].
  probe_after "Roll" ["Sample"; "AccelX"; "AccelY"; "AccelZ"; "GyroX"; "GyroY"; "GyroZ"]
    ["Pitch"].
  probe_after "Pitch"
    ["Sample"; "AccelX"; "AccelY"; "AccelZ"; "GyroX"; "GyroY"; "GyroZ"; "Roll"]
    (@nil string).
  exfalso. unfold expected_columns, float_columns in Hc.
  repeat (apply elem_of_cons in Hc as [->|Hc]; [congruence |]).
  apply elem_of_nil in Hc. exact Hc.
Qed.

End FirstMissing.

(** X6.  When several expected columns are absent, the message names the
    first of them in the order Sample, AccelX, AccelY, AccelZ, GyroX,
    GyroY, GyroZ, Roll, Pitch: every expected column listed before the
    one it names is present in the table. *)
Theorem first_missing_column_named
    (nansum : list float -> float) (layout_error : Figure -> option string)
    (w : World) (data : DataFrame) :
  disk w !! filename = Some (Table data) ->
  (exists c, c ∈ expected_columns /\ columns data !! c = None) ->
  exists c pre post,
    expected_columns = pre ++ c :: post /\
    (forall c', c' ∈ pre -> is_Some (columns data !! c')) /\
    columns data !! c = None /\
    console (main nansum layout_error w).1 !! (length (console w) + 1)%nat =
      Some ("ERROR: Column not found: '" +:+ c +:+ "'").
Proof.
  intros Hd Hmiss.
  destruct (body_first_missing nansum layout_error w data Hd Hmiss)
    as (c & pre & post & He & Hp & Hn & Hb).
  exists c, pre, post. do 3 (split; [assumption |]).
  rewrite (main_of_body_raise nansum layout_error _ _ _ _ Hb (handler_key_error c _)).
  simpl. rewrite <- !app_assoc. rewrite lookup_app_r by lia.
  rewrite Nat.add_comm, Nat.add_sub. reflexivity.
Qed.

Lemma first_missing_column_named_witness :
  columns no_gyro_y_no_pitch !! "GyroY" = None /\
  columns no_gyro_y_no_pitch !! "Pitch" = None /\
  console (main Series.np_nansum overflowing (boot (Some (Table no_gyro_y_no_pitch)))).1
    !! (length (console (boot (Some (Table no_gyro_y_no_pitch)))) + 1)%nat =
    Some "ERROR: Column not found: 'GyroY'".
Proof.
  do 2 (split; [reflexivity |]).
  destruct (first_missing_column_named Series.np_nansum overflowing
              (boot (Some (Table no_gyro_y_no_pitch))) no_gyro_y_no_pitch)
    as (c & pre & post & He & Hp & Hn & Hc).
  - reflexivity.
  - exists "Pitch". split; [apply in_expected_columns |]; reflexivity.
  - rewrite Hc. clear Hc.
    unfold expected_columns, float_columns in He.
    do 5 (destruct pre as [|? pre]; simpl in He;
          [injection He as <- _; discriminate Hn | injection He as <- He]).
    destruct pre as [|? pre]; simpl in He; [injection He as <- _; reflexivity |].
    injection He as <- He.
    destruct (Hp "GyroY") as [s Hs]; [| discriminate Hs].
    do 5 right. left.
Defined.

(** *** Duration and sample rate *)






(** *** A figure that cannot be laid out *)

(** X16.  When [plt.tight_layout()] raises on the figure, the run stops
    there, before the reporter: after the number of samples it prints the
    generic error with the message of the exception, then the usage
    instructions, and nothing else; no duration, no statistics, and the
    disk is left as it was. *)
Theorem layout_failure_reported
    (nansum : list float -> float) (layout_error : Figure -> option string)
    (w : World) (data : DataFrame) (m : string) :
  disk w !! filename = Some (Table data) ->
  has_header data ->
  layout_raises layout_error (figure_of data) m ->
  main nansum layout_error w =
    ({| console := console w ++
          ["Data loaded: " +:+ B64.decimal (Z.of_nat (index_size data)) +:+ " samples";
           "ERROR: " +:+ m] ++ usage;
        disk := disk w |}, inr tt).
Proof.
  intros Hd Hh Hl.
  apply (main_layout_raise nansum layout_error w data m Hd Hh Hl).
Qed.

Lemma layout_failure_reported_witness :
  main Series.np_nansum overflowing (boot (Some (Table three_rows_off_scale))) =
    ({| console := console (boot (Some (Table three_rows_off_scale))) ++
          ["Data loaded: " +:+
           B64.decimal (Z.of_nat (index_size three_rows_off_scale)) +:+ " samples";
           "ERROR: " +:+ "arange: cannot compute length"] ++ usage;
        disk := disk (boot (Some (Table three_rows_off_scale))) |}, inr tt).
Proof.
  apply (layout_failure_reported Series.np_nansum overflowing
           (boot (Some (Table three_rows_off_scale))) three_rows_off_scale
           "arange: cannot compute length").
  - reflexivity.
  - apply wf_header. frame_wf.
  - split; vm_compute; reflexivity.
Defined.

(** *** Reported extremes *)

(** X9.  The minimum reported for a float64 column never exceeds the
    maximum reported for it; when every cell of the column is missing,
    both are NaN. *)
Theorem min_at_most_max (l : list float) :
  match Series.dropna l with
  | [] =>
      Series.min (Float64Series l) = np_float64 nan /\
      Series.max (Float64Series l) = np_float64 nan
  | _ =>
      B64.le (to_float (Series.min (Float64Series l)))
             (to_float (Series.max (Float64Series l)))
  end.
Proof.
  pose proof (nanmin_is_minimum l) as Hmin.
  pose proof (nanmax_is_maximum l) as Hmax.
  unfold is_minimum, is_maximum in *. simpl.
  destruct (Series.dropna l) as [|x r].
  - rewrite Hmin, Hmax. split; reflexivity.
  - destruct Hmin as [Hin _]. destruct Hmax as [_ Hle]. apply Hle, Hin.
Qed.

(** *** The magnitude and the orientation of the sensor *)

Lemma SFmul_opp_opp prec emax x :
  SFmul prec emax (SFopp x) (SFopp x) = SFmul prec emax x x.
Proof. destruct x as [[]|[]| |[] m e]; reflexivity. Qed.

Lemma square_opp x : (- x * - x = x * x)%float.
Proof.
  apply Prim2SF_inj. rewrite !mul_spec, opp_spec. apply SFmul_opp_opp.
Qed.

Lemma pow2_flipped b l :
  Series.pow2 (Float64Series (flipped b l)) = Series.pow2 (Float64Series l).
Proof.
  destruct b; simpl; [| reflexivity].
  rewrite <- list_fmap_compose. f_equal.
  apply list_fmap_ext. intros i x _. apply square_opp.
Qed.

(** X10.  The magnitude does not depend on the sign of any axis: two
    tables whose acceleration columns are equal up to the negation of
    whole columns have the same magnitude series. *)
Theorem magnitude_ignores_orientation
    (data data' : DataFrame) (w : World) (bx by_ bz : bool) (ax ay az : list float) :
  columns data !! "AccelX" = Some (Float64Series ax) ->
  columns data !! "AccelY" = Some (Float64Series ay) ->
  columns data !! "AccelZ" = Some (Float64Series az) ->
  columns data' !! "AccelX" = Some (Float64Series (flipped bx ax)) ->
  columns data' !! "AccelY" = Some (Float64Series (flipped by_ ay)) ->
  columns data' !! "AccelZ" = Some (Float64Series (flipped bz az)) ->
  accel_magnitude data' w = accel_magnitude data w.
Proof.
  intros Hx Hy Hz Hx' Hy' Hz'.
  rewrite (accel_magnitude_ok data' _ _ _ w Hx' Hy' Hz').
  rewrite (accel_magnitude_ok data _ _ _ w Hx Hy Hz).
  rewrite !pow2_flipped. reflexivity.
Qed.

Lemma magnitude_ignores_orientation_witness :
  accel_magnitude
    (frame 1 [("AccelX", Float64Series (flipped true [0.5%float]));
              ("AccelY", Float64Series (flipped false [0.25%float]));
              ("AccelZ", Float64Series (flipped true [1%float]))]) (boot None) =
  accel_magnitude
    (frame 1 [("AccelX", Float64Series [0.5%float]);
              ("AccelY", Float64Series [0.25%float]);
              ("AccelZ", Float64Series [1%float])]) (boot None).
Proof.
  apply (magnitude_ignores_orientation
           (frame 1 [("AccelX", Float64Series [0.5%float]);
                     ("AccelY", Float64Series [0.25%float]);
                     ("AccelZ", Float64Series [1%float])])
           (frame 1 [("AccelX", Float64Series (flipped true [0.5%float]));
                     ("AccelY", Float64Series (flipped false [0.25%float]));
                     ("AccelZ", Float64Series (flipped true [1%float]))])
           (boot None) true false true [0.5%float] [0.25%float] [1%float]);
    reflexivity.
Defined.

(** *** What the run reads and what it writes *)

Lemma filename_is_not_output : output <> filename.
Proof. discriminate. Qed.

Lemma after_keeps_input eff w : disk (after eff w) !! filename = disk w !! filename.
Proof.
  unfold after. simpl. destruct (saved eff); [| reflexivity].
  apply lookup_insert_ne, filename_is_not_output.
Qed.

(** X11.  What a run prints and saves depends on nothing but the content
    of [mpu_data.csv]: in two worlds that agree on that file, whatever
    else is on disk and on the console, the run prints the same lines and
    saves the same picture, or none. *)
Theorem run_depends_on_input_only
    (nansum : list float -> float) (layout_error : Figure -> option string)
    (w v : World) :
  disk w !! filename = disk v !! filename ->
  exists eff,
    main nansum layout_error w = (after eff w, inr tt) /\
    main nansum layout_error v = (after eff v, inr tt).
Proof.
  intros Hwv.
  destruct (main_uniform nansum layout_error (disk w !! filename)) as [eff H].
  exists eff. split; [apply H; reflexivity | apply H; symmetry; exact Hwv].
Qed.

Lemma run_depends_on_input_only_witness :
  exists eff,
    main Series.np_nansum overflowing (boot (Some (Table three_rows))) =
      (after eff (boot (Some (Table three_rows))), inr tt) /\
    main Series.np_nansum overflowing
      {| console := ["earlier output"];
         disk := <["notes.txt" := Unreadable "not a table"]>
                   (disk (boot (Some (Table three_rows)))) |} =
      (after eff
         {| console := ["earlier output"];
            disk := <["notes.txt" := Unreadable "not a table"]>
                      (disk (boot (Some (Table three_rows)))) |}, inr tt).
Proof.
  apply (run_depends_on_input_only Series.np_nansum overflowing
           (boot (Some (Table three_rows)))
           {| console := ["earlier output"];
              disk := <["notes.txt" := Unreadable "not a table"]>
                        (disk (boot (Some (Table three_rows)))) |}).
  reflexivity.
Defined.

(** X12.  Running the script a second time prints the same lines again
    and leaves the disk as the first run left it: the picture is
    overwritten with the same picture and the input file is never
    touched. *)
Theorem second_run_repeats_the_first
    (nansum : list float -> float) (layout_error : Figure -> option string)
    (w : World) :
  exists eff,
    main nansum layout_error w = (after eff w, inr tt) /\
    main nansum layout_error (main nansum layout_error w).1 =
      (after eff (main nansum layout_error w).1, inr tt) /\
    disk (main nansum layout_error (main nansum layout_error w).1).1 =
      disk (main nansum layout_error w).1.
Proof.
  destruct (main_uniform nansum layout_error (disk w !! filename)) as [eff H].
  pose proof (H w eq_refl) as H1.
  pose proof (H (after eff w) (after_keeps_input eff w)) as H2.
  exists eff. rewrite H1. simpl. rewrite H2. simpl.
  repeat split.
  destruct (saved eff); [apply insert_insert_eq | reflexivity].
Qed.

(** X13.  The only path a run may change on disk is
    [mpu6050_analysis.png]: every other file, the input among them, is
    after the run what it was before. *)
Theorem only_the_picture_is_written
    (nansum : list float -> float) (layout_error : Figure -> option string)
    (w : World) (path : string) :
  path <> output ->
  disk (main nansum layout_error w).1 !! path = disk w !! path.
Proof.
  intros Hp.
  destruct (main_uniform nansum layout_error (disk w !! filename)) as [eff H].
  rewrite (H w eq_refl). unfold after. simpl.
  destruct (saved eff); [| reflexivity].
  apply lookup_insert_ne. congruence.
Qed.

Lemma only_the_picture_is_written_witness :
  disk (main Series.np_nansum overflowing (boot (Some (Table three_rows)))).1 !! filename =
    disk (boot (Some (Table three_rows))) !! filename.
Proof.
  apply (only_the_picture_is_written Series.np_nansum overflowing
           (boot (Some (Table three_rows))) filename).
  discriminate.
Defined.

(** *** Columns the script does not name *)

Lemma getitem_agree data data' c :
  agree data data' -> bool_decide (c ∈ expected_columns) = true ->
  getitem data' c = getitem data c.
Proof.
  intros [_ H] Hc. unfold getitem.
  rewrite (H c (in_expected_columns c Hc)). reflexivity.
Qed.

Lemma body_agree nansum layout_error data data' :
  agree data data' ->
  exists eff r,
    (forall w, disk w !! filename = Some (Table data) ->
       body nansum layout_error w = (after eff w, r)) /\
    (forall w, disk w !! filename = Some (Table data') ->
       body nansum layout_error w = (after eff w, r)).
Proof.
  intros Ha. unfold body.
  match goal with
  | |- context [read_csv filename ≫= ?k] =>
      assert (uniform (k data)) as (eff & r & H);
      [| assert (k data' = k data) as Hk ]
  end.
  - cbv beta.
    do 10 (cbv zeta; apply uniform_bind; [solve [auto with uniform] | intros ?]).
    apply uniform_print.
  - cbv beta.
    unfold time, plot_acceleration, plot_gyroscope, plot_angles, plot_column,
      accel_magnitude, report, print_stats.
    rewrite !(getitem_agree data data' _ Ha) by reflexivity.
    destruct Ha as [<- _]. reflexivity.
  - exists eff, r. split; intros w Hw.
    + rewrite (bind_ok _ _ _ _ _ (read_csv_ok _ _ _ Hw)). apply H.
    + rewrite (bind_ok _ _ _ _ _ (read_csv_ok _ _ _ Hw)). rewrite Hk. apply H.
Qed.

(** X14.  Columns other than the nine the script names are ignored: two
    tables with the same number of rows and the same nine columns make
    the run print the same lines and save the same picture, whatever
    other columns either of them has. *)
Theorem other_columns_are_ignored
    (nansum : list float -> float) (layout_error : Figure -> option string)
    (w w' : World) (data data' : DataFrame) :
  agree data data' ->
  disk w !! filename = Some (Table data) ->
  disk w' !! filename = Some (Table data') ->
  exists eff,
    main nansum layout_error w = (after eff w, inr tt) /\
    main nansum layout_error w' = (after eff w', inr tt).
Proof.
  intros Ha Hw Hw'.
  destruct (body_agree nansum layout_error data data' Ha) as (eff & r & H & H').
  destruct (main_after_body nansum layout_error eff r) as [eff' Hm].
  exists eff'. split; apply Hm; [apply H, Hw | apply H', Hw'].
Qed.

Lemma other_columns_are_ignored_witness :
  exists eff,
    main Series.np_nansum overflowing (boot (Some (Table three_rows))) =
      (after eff (boot (Some (Table three_rows))), inr tt) /\
    main Series.np_nansum overflowing (boot (Some (Table three_rows_and_more))) =
      (after eff (boot (Some (Table three_rows_and_more))), inr tt).
Proof.
  apply (other_columns_are_ignored Series.np_nansum overflowing
           (boot (Some (Table three_rows))) (boot (Some (Table three_rows_and_more)))
           three_rows three_rows_and_more).
  - split; [reflexivity |].
    intros c Hc. unfold expected_columns, float_columns in Hc.
    repeat (apply elem_of_cons in Hc as [->|Hc]; [reflexivity |]).
    apply elem_of_nil in Hc. contradiction.
  - reflexivity.
  - reflexivity.
Defined.

(** *** Rounding to a number of decimals *)


